(** * Book-catalog service (main.py, models.py, llama3_model.py): a shallow embedding

    The FastAPI handlers are modelled as computations in a small state and
    exception monad over the database contents: an [HTTPException] aborts the
    handler, and the database only changes at the handler's [commit].  The
    external LLM is not modelled: the text it replies with is an input of the
    handlers that call it.  Times are integer seconds since the epoch, as the
    JWT ["exp"] claim encodes them. *)

From Stdlib Require Import ZArith String Ascii List Bool Lia QArith Permutation.
Import ListNotations.

Local Open Scope string_scope.
Local Open Scope list_scope.
Local Open Scope Z_scope.

(** ** models.py *)

Inductive Genre :=
| Adventure | Classic | Crime | Drama | Fantasy | Historical_Fiction | Horror
| Literary_Fiction | Mystery | History | Science_Fiction | Thriller | Western
| Dystopian | Magical_Realism | Satire | Biography | Autobiography | Self_Help
| Poetry.

Inductive Role := USER | ADMIN.

Definition role_eqb (a b : Role) : bool :=
  match a, b with
  | USER, USER | ADMIN, ADMIN => true
  | _, _ => false
  end.

Module User.
Record t := mk {
  id : Z;
  username : string;
  email : string;
  password : string;
  interested_genre : Genre;
  role : Role
}.
End User.

Module Book.
(** [genre] is a [String] column, unlike [User.interested_genre];
    [summary] is a nullable String column: [None] is SQL NULL. *)
Record t := mk {
  id : Z;
  title : string;
  author : string;
  genre : string;
  year_published : Z;
  summary : option string
}.

Definition set_summary (b : t) (s : option string) : t :=
  mk (id b) (title b) (author b) (genre b) (year_published b) s.
End Book.

Module Review.
Record t := mk {
  id : Z;
  book_id : Z;
  user_id : Z;
  review_text : option string;
  rating : Z
}.
End Review.

(** The database: the three tables, and the next value of each table's
    primary-key sequence (an [Integer, primary_key=True] column). *)
Record DB := mkDB {
  users : list User.t;
  books : list Book.t;
  reviews : list Review.t;
  next_user_id : Z;
  next_book_id : Z;
  next_review_id : Z
}.

(** [select(User).filter(User.id == uid)] then [.scalar()]: the first row. *)
Definition find_user_by_id (uid : Z) (st : DB) : option User.t :=
  find (fun u => User.id u =? uid) (users st).

Definition find_book (bid : Z) (st : DB) : option Book.t :=
  find (fun b => Book.id b =? bid) (books st).

(** Committing a modified [Book] object: the row with its primary key is
    overwritten. *)
Definition put_book (b : Book.t) (st : DB) : DB :=
  mkDB (users st)
       (map (fun x => if Book.id x =? Book.id b then b else x) (books st))
       (reviews st) (next_user_id st) (next_book_id st) (next_review_id st).

(** ** Handler monad: state passing over [DB] with [HTTPException]s *)

Record HTTPException := mkExc { status_code : Z; detail : string }.

Inductive outcome (A : Type) :=
| Ok (a : A)
| Raise (e : HTTPException).
Arguments Ok {A} a.
Arguments Raise {A} e.

Definition M (A : Type) := DB -> outcome A * DB.

Definition ret {A} (a : A) : M A := fun st => (Ok a, st).

Definition bind {A B} (m : M A) (k : A -> M B) : M B :=
  fun st =>
    match m st with
    | (Ok a, st') => k a st'
    | (Raise e, st') => (Raise e, st')
    end.

Definition raise {A} (e : HTTPException) : M A := fun st => (Raise e, st).

Definition gets {A} (f : DB -> A) : M A := fun st => (Ok (f st), st).

Definition commit (f : DB -> DB) : M unit := fun st => (Ok tt, f st).

Notation "x <- m ;; k" := (bind m (fun x => k))
  (at level 61, m at next level, right associativity).

(** Inserting rows at [commit].  The [users] table has [unique=True] on
    [username] and on [email]; the [reviews] table declares a foreign key
    [book_id -> books.id] and NOT NULL columns, and no unique constraint.  A
    violated constraint is an [IntegrityError], which FastAPI answers with
    500. *)
Definition integrity_error : HTTPException := mkExc 500 "IntegrityError".

Definition insert_user (mk_user : Z -> User.t) : M User.t :=
  fun st =>
    let u := mk_user (next_user_id st) in
    if existsb (fun x => String.eqb (User.username x) (User.username u)
                         || String.eqb (User.email x) (User.email u)) (users st)
    then (Raise integrity_error, st)
    else (Ok u, mkDB (users st ++ [u]) (books st) (reviews st)
                     (next_user_id st + 1) (next_book_id st) (next_review_id st)).

Definition insert_review (book_id user_id : Z) (review_text : option string)
    (rating : Z) : M Review.t :=
  fun st =>
    match find_book book_id st with
    | None => (Raise integrity_error, st)
    | Some _ =>
        let r := Review.mk (next_review_id st) book_id user_id review_text rating in
        (Ok r, mkDB (users st) (books st) (reviews st ++ [r])
                    (next_user_id st) (next_book_id st) (next_review_id st + 1))
    end.

(** A Python value assigned to the [String] column [books.genre]: a [str],
    or a member of the [Genre] enum. *)
Inductive PyGenre := PyStr (s : string) | PyEnum (g : Genre).

(** The ORM hands a [String] column's value to asyncpg unchanged, and
    asyncpg's text encoder takes only a [str]: [Genre] is a plain [Enum]
    (not a [str] subclass), so its members are refused. *)
Definition encode_text (v : PyGenre) : option string :=
  match v with
  | PyStr s => Some s
  | PyEnum _ => None
  end.

(** asyncpg's encoder for an [Integer] (int4) column. *)
Definition encode_int4 (z : Z) : bool := (- 2 ^ 31 <=? z) && (z <? 2 ^ 31).

(** A value refused by the driver: a [DataError], which FastAPI answers
    with 500; the transaction is rolled back. *)
Definition data_error : HTTPException := mkExc 500 "DataError".

(** Inserting a [books] row at [commit]: every column is bound. *)
Definition insert_book (title author : string) (genre : PyGenre) (year : Z)
    (summary : option string) : M Book.t :=
  fun st =>
    match encode_text genre with
    | Some g =>
        if encode_int4 year then
          let b := Book.mk (next_book_id st) title author g year summary in
          (Ok b, mkDB (users st) (books st ++ [b]) (reviews st)
                      (next_user_id st) (next_book_id st + 1) (next_review_id st))
        else (Raise data_error, st)
    | None => (Raise data_error, st)
    end.



(** [await db.delete(existing_book); await db.commit()].  [Book.reviews] is
    a one-to-many relationship without a delete cascade, so the flush sets
    [book_id] of the book's reviews to NULL, which the NOT NULL column (and the
    foreign key) refuse: deleting a reviewed book is an [IntegrityError]. *)
Definition delete_book_row (b : Book.t) : M unit :=
  fun st =>
    if existsb (fun r => Review.book_id r =? Book.id b) (reviews st)
    then (Raise integrity_error, st)
    else (Ok tt, mkDB (users st)
                      (filter (fun x => negb (Book.id x =? Book.id b)) (books st))
                      (reviews st) (next_user_id st) (next_book_id st)
                      (next_review_id st)).

(** ** Tokens (python-jose, HS256) *)

(** The claims the service reads or writes: ["user_id"], ["sub"], ["exp"]. *)
Record Claims := mkClaims {
  claim_user_id : option Z;
  claim_sub : option string;
  claim_exp : option Z
}.

(** A bearer token: either not a well-formed JWS, or claims signed with a key
    under an algorithm. *)
Inductive Token :=
| TMalformed
| TSigned (claims : Claims) (key : string) (alg : string).

Definition ALGORITHM : string := "HS256".
Definition ACCESS_TOKEN_EXPIRE_MINUTES : Z := 30.

(** A [timedelta] as a number of seconds; [if expires_delta:] is false for
    [None] and for the zero [timedelta]. *)
Definition timedelta_minutes (m : Z) : Z := 60 * m.

Definition py_truthy_delta (d : option Z) : bool :=
  match d with
  | None => false
  | Some z => negb (z =? 0)
  end.

(** A field of a JSON request body: absent, or given. *)
Inductive Field (A : Type) := Omitted | Given (a : A).
Arguments Omitted {A}.
Arguments Given {A} a.

Section Server.

(** [SECRET_KEY = os.getenv("SECRET_KEY")], required to be set. *)
Variable SECRET_KEY : string.

Definition jwt_encode (c : Claims) : Token := TSigned c SECRET_KEY ALGORITHM.

(** [jwt.decode(token, SECRET_KEY, algorithms=[ALGORITHM])] at time [now]:
    [None] is a [JWTError] (bad format, bad signature or algorithm, or
    [exp < now]). *)
Definition jwt_decode (now : Z) (t : Token) : option Claims :=
  match t with
  | TMalformed => None
  | TSigned c k a =>
      if String.eqb k SECRET_KEY && String.eqb a ALGORITHM then
        match claim_exp c with
        | Some e => if e <? now then None else Some c
        | None => Some c
        end
      else None
  end.

(** [create_access_token(data, expires_delta)] called at [datetime.utcnow()
    = now]: [data.copy()] updated with ["exp"]. *)
Definition create_access_token (now : Z) (data : Claims)
    (expires_delta : option Z) : Token :=
  let expire :=
    if py_truthy_delta expires_delta then now + match expires_delta with
                                               | Some d => d | None => 0 end
    else now + timedelta_minutes 15 in
  jwt_encode (mkClaims (claim_user_id data) (claim_sub data) (Some expire)).

Definition credentials_exception : HTTPException :=
  mkExc 401 "Could not validate credentials".

(** [get_current_user]; the token comes from [oauth2_scheme], which answers
    401 itself when no bearer token is sent ([None]). *)
Definition get_current_user (now : Z) (token : option Token) : M User.t :=
  match token with
  | None => raise (mkExc 401 "Not authenticated")
  | Some t =>
      match jwt_decode now t with
      | None => raise credentials_exception
      | Some payload =>
          match claim_user_id payload with
          | None => raise credentials_exception
          | Some user_id =>
              user <- gets (find_user_by_id user_id) ;;
              match user with
              | None => raise credentials_exception
              | Some u => ret u
              end
          end
      end
  end.

Definition require_admin (current_user : User.t) : M unit :=
  if negb (role_eqb (User.role current_user) ADMIN)
  then raise (mkExc 403 "Admin access is required")
  else ret tt.

(** [pwd_context.hash] and [pwd_context.verify] (bcrypt), left abstract. *)
Variable get_password_hash : string -> string.
Variable verify_password : string -> string -> bool.

(** *** Users *)

Record UserCreate := mkUserCreate {
  uc_username : string;
  uc_password : string;
  uc_email : string;
  uc_interested_genre : Genre;
  uc_role : Role
}.

(** [create_user] (POST /users). *)
Definition create_user (user : UserCreate) : M User.t :=
  existing_user <- gets (fun st =>
    find (fun u => String.eqb (User.username u) (uc_username user)
                   || String.eqb (User.email u) (uc_email user)) (users st)) ;;
  match existing_user with
  | Some _ => raise (mkExc 400 "Username or email already registered")
  | None =>
      let hashed_password := get_password_hash (uc_password user) in
      insert_user (fun new_id =>
        User.mk new_id (uc_username user) (uc_email user) hashed_password
                (uc_interested_genre user) (uc_role user))
  end.

Record OAuth2PasswordRequestForm := mkForm {
  form_username : string;
  form_password : string
}.

Record TokenResponse := mkTokenResponse {
  access_token : Token;
  token_type : string
}.

Definition find_user_by_username (name : string) (st : DB) : option User.t :=
  find (fun u => String.eqb (User.username u) name) (users st).

(** [login] (POST /token), at time [now]. *)
Definition login (now : Z) (form_data : OAuth2PasswordRequestForm)
    : M TokenResponse :=
  user <- gets (find_user_by_username (form_username form_data)) ;;
  match user with
  | None => raise (mkExc 400 "Incorrect username or password")
  | Some u =>
      if negb (verify_password (form_password form_data) (User.password u))
      then raise (mkExc 400 "Incorrect username or password")
      else
        let access_token_expires := timedelta_minutes ACCESS_TOKEN_EXPIRE_MINUTES in
        let tok := create_access_token now
                     (mkClaims (Some (User.id u)) (Some (User.username u)) None)
                     (Some access_token_expires) in
        ret (mkTokenResponse tok "bearer")
  end.

(** *** Books *)

(** The request body of [BookCreateSchema]; [summary: Optional[str]] may be
    omitted, null ([Given None]) or a string. *)
Record BookCreateBody := mkBookCreateBody {
  body_title : string;
  body_author : string;
  body_genre : Genre;
  body_year_published : Z;
  body_summary : Field (option string)
}.

Record BookCreateSchema := mkBookCreateSchema {
  bc_title : string;
  bc_author : string;
  bc_genre : Genre;
  bc_year_published : Z;
  bc_summary : option string
}.

(** Parsing the body: [summary] defaults to [''] ([Field(default='')]). *)
Definition BookCreateSchema_parse (b : BookCreateBody) : BookCreateSchema :=
  mkBookCreateSchema (body_title b) (body_author b) (body_genre b)
    (body_year_published b)
    match body_summary b with
    | Omitted => Some ""
    | Given s => s
    end.


(** *** Reviews *)

(** A number of the JSON body as Python receives it: an [int], or a [float]
    whose value is the rational [q]. *)
Inductive JNumber := JInt (z : Z) | JFloat (q : Q).

(** Python's [int(x)]: floats are truncated toward zero. *)
Definition py_int (x : JNumber) : Z :=
  match x with
  | JInt z => z
  | JFloat q => Z.quot (Qnum q) (Zpos (Qden q))
  end.

(** Pydantic's lax validation of a field declared [int]: a float is accepted
    only when it has no fractional part; otherwise the request fails with a
    422 validation error before the handler runs. *)
Definition pydantic_int (x : JNumber) : option Z :=
  match x with
  | JInt z => Some z
  | JFloat q =>
      if Z.rem (Qnum q) (Zpos (Qden q)) =? 0
      then Some (Z.quot (Qnum q) (Zpos (Qden q)))
      else None
  end.

Definition request_validation_error : HTTPException :=
  mkExc 422 "Input should be a valid integer".

Record ReviewCreateBody := mkReviewCreateBody {
  rc_review_text : string;
  rc_rating : JNumber
}.

(** [Review.validate_rating]: [value = int(value)], then the [isinstance]
    test (always passed after the conversion), then the range test. *)
Definition validate_rating (value : JNumber) : outcome Z :=
  let value := py_int value in
  if (value <? 1) || (value >? 5)
  then Raise (mkExc 400 "Rating must be between 1 and 5")
  else Ok value.

Definition find_review (book_id user_id : Z) (st : DB) : option Review.t :=
  find (fun r => (Review.book_id r =? book_id) && (Review.user_id r =? user_id))
       (reviews st).

(** [add_review] (POST /books/{id}/reviews) up to the insert: the
    [get_current_user] dependency, the body validation, the book lookup,
    the duplicate check, and the construction of [Review(...)], whose
    [rating] goes through [validate_rating].  Returns the column values of the
    row to insert. *)
Definition add_review_check (now : Z) (token : option Token) (id : Z)
    (review : ReviewCreateBody) : M (Z * Z * option string * Z) :=
  current_user <- get_current_user now token ;;
  match pydantic_int (rc_rating review) with
  | None => raise request_validation_error
  | Some rating =>
      book <- gets (find_book id) ;;
      match book with
      | None => raise (mkExc 404 "Book not found")
      | Some _ =>
          existing_review <- gets (find_review id (User.id current_user)) ;;
          match existing_review with
          | Some _ => raise (mkExc 400 "You can only rate a book once.")
          | None =>
              match validate_rating (JInt rating) with
              | Raise e => raise e
              | Ok r => ret (id, User.id current_user, Some (rc_review_text review), r)
              end
          end
      end
  end.

(** [db.add(new_review); await db.commit()]. *)
Definition add_review_commit (row : Z * Z * option string * Z) : M Review.t :=
  let '(book_id, user_id, review_text, rating) := row in
  insert_review book_id user_id review_text rating.

Definition add_review (now : Z) (token : option Token) (id : Z)
    (review : ReviewCreateBody) : M Review.t :=
  row <- add_review_check now token id review ;;
  add_review_commit row.

(** *** Book summary and average rating *)

(** The integer nearest to [a / b] ([b > 0]), half-way cases to the even
    neighbour. *)
Definition round_half_even (a b : Z) : Z :=
  let q := a / b in
  let r := a mod b in
  if 2 * r <? b then q
  else if b <? 2 * r then q + 1
  else if Z.even q then q else q + 1.

(** [2 ^ k <= a / q] for [q > 0]. *)
Definition pow2_le (k a q : Z) : bool :=
  if 0 <=? k then q * 2 ^ k <=? a else q <=? a * 2 ^ (- k).

(** [floor (log2 (a / q))] for [a, q > 0]. *)
Definition floor_log2_div (a q : Z) : Z :=
  let k := Z.log2 a - Z.log2 q in
  if pow2_le k a q then k else k - 1.

(** Python's [p / q] on [int]s ([q > 0]): the binary64 double nearest to the
    exact quotient, ties to even, as [(m, e)] of value [m * 2 ^ e]
    (53-bit significand, subnormals below [2 ^ -1022]); [None] is the
    [OverflowError] of a quotient that rounds to [2 ^ 1024] or beyond. *)
Definition int_truediv (p q : Z) : option (Z * Z) :=
  if p =? 0 then Some (0, 0) else
  let a := Z.abs p in
  let e := Z.max (floor_log2_div a q - 52) (-1074) in
  let m := round_half_even (a * 2 ^ Z.max (- e) 0) (q * 2 ^ Z.max e 0) in
  if (if 0 <=? e then 2 ^ 1024 <=? m * 2 ^ e else 2 ^ 1024 * 2 ^ (- e) <=? m)
  then None
  else Some (Z.sgn p * m, e).

(** Python's [round(x, 2)] on the double [x = m * 2 ^ e], as a number of
    hundredths: CPython rounds the exact binary value of [x] to two
    decimals, half-way cases to even, and returns the double nearest to
    that decimal. *)
Definition round2_float (x : Z * Z) : Z :=
  let '(m, e) := x in
  if 0 <=? e then 100 * m * 2 ^ e else round_half_even (100 * m) (2 ^ (- e)).

Definition overflow_error : HTTPException := mkExc 500 "OverflowError".

(** ["NA"], or a float given by its number of hundredths [h]: the response
    carries the double nearest to [h / 100]. *)
Inductive AverageRating := NA | Avg (hundredths : Z).

Record BookSummary := mkBookSummary {
  bs_summary : option string;
  bs_average_rating : AverageRating
}.

Definition sum_ratings (rs : list Review.t) : Z :=
  fold_left (fun acc r => acc + Review.rating r) rs 0.

(** [get_book_summary] (GET /books/{book_id}/summary). *)
Definition get_book_summary (now : Z) (token : option Token) (book_id : Z)
    : M BookSummary :=
  _ <- get_current_user now token ;;
  book <- gets (find_book book_id) ;;
  match book with
  | None => raise (mkExc 404 "Book not found")
  | Some b =>
      reviews <- gets (fun st =>
        filter (fun r => Review.book_id r =? book_id) (reviews st)) ;;
      match reviews with
      | [] => ret (mkBookSummary (Book.summary b) NA)
      | _ =>
          match int_truediv (sum_ratings reviews) (Z.of_nat (length reviews)) with
          | None => raise overflow_error
          | Some x => ret (mkBookSummary (Book.summary b) (Avg (round2_float x)))
          end
      end
  end.

(** *** LLM summary *)

(** Python's [needle in hay] on strings. *)
Fixpoint str_contains (needle hay : string) : bool :=
  match hay with
  | EmptyString => String.prefix needle hay
  | String _ rest => String.prefix needle hay || str_contains needle rest
  end.

(** [generate_book_summary(book, book_content)] where the model replied
    [content]. *)
Definition generate_book_summary (book : Book.t) (book_content : string)
    (content : string) : M string :=
  if str_contains "NONE" content
  then raise (mkExc 400 "Please provide enough book content to generate a summary.")
  else ret content.

(** [generate_summary] (POST /books/{id}/generate-summary), with
    [dependencies=[Depends(get_current_user), Depends(require_admin)]]:
    the user is resolved first and [require_admin] reuses it. *)
Definition admin_dependencies (now : Z) (token : option Token) : M unit :=
  current_user <- get_current_user now token ;;
  require_admin current_user.

Definition generate_summary (now : Z) (token : option Token) (id : Z)
    (book_content : string) (llm_reply : string) : M string :=
  _ <- admin_dependencies now token ;;
  book <- gets (find_book id) ;;
  match book with
  | None => raise (mkExc 404 "Book not found")
  | Some b =>
      summary <- generate_book_summary b book_content llm_reply ;;
      let b' := Book.set_summary b (Some summary) in
      _ <- commit (put_book b') ;;
      ret summary
  end.

(** *** Responses *)

Inductive JValue := JVInt (z : Z) | JVStr (s : string).

Definition genre_value (g : Genre) : string :=
  match g with
  | Adventure => "Adventure" | Classic => "Classic" | Crime => "Crime"
  | Drama => "Drama" | Fantasy => "Fantasy"
  | Historical_Fiction => "Historical Fiction" | Horror => "Horror"
  | Literary_Fiction => "Literary Fiction" | Mystery => "Mystery"
  | History => "History" | Science_Fiction => "Science Fiction"
  | Thriller => "Thriller" | Western => "Western" | Dystopian => "Dystopian"
  | Magical_Realism => "Magical Realism" | Satire => "Satire"
  | Biography => "Biography" | Autobiography => "Autobiography"
  | Self_Help => "Self-Help" | Poetry => "Poetry"
  end.

Definition role_value (r : Role) : string :=
  match r with USER => "user" | ADMIN => "admin" end.

(** Serialisation through [response_model=UserSchema]: only the schema's
    fields are emitted. *)
Definition UserSchema_dump (u : User.t) : list (string * JValue) :=
  [("id", JVInt (User.id u)); ("username", JVStr (User.username u));
   ("email", JVStr (User.email u));
   ("interested_genre", JVStr (genre_value (User.interested_genre u)));
   ("role", JVStr (role_value (User.role u)))].

Record Response := mkResponse {
  resp_status : Z;
  resp_body : list (string * JValue)
}.

(** A route: the handler's value is serialised with the route's status code;
    an [HTTPException] becomes its status code and [{"detail": ...}]. *)
Definition run_route {A} (status : Z) (dump : A -> list (string * JValue))
    (m : M A) : DB -> Response * DB :=
  fun st =>
    match m st with
    | (Ok a, st') => (mkResponse status (dump a), st')
    | (Raise e, st') => (mkResponse (status_code e) [("detail", JVStr (detail e))], st')
    end.

(** FastAPI's status code for a route that does not set [status_code]. *)
Definition default_status_code : Z := 200.

(** [@app.post("/users", response_model=UserSchema)] over [create_user]. *)
Definition post_users (user : UserCreate) : DB -> Response * DB :=
  run_route default_status_code UserSchema_dump (create_user user).

(** *** The other routes *)

(** [whoami] (GET /users/whoami): decodes the token itself and looks the
    user up by the ["sub"] claim, not by ["user_id"]. *)
Definition whoami (now : Z) (token : option Token) : M User.t :=
  match token with
  | None => raise (mkExc 401 "Not authenticated")
  | Some t =>
      match jwt_decode now t with
      | None => raise credentials_exception
      | Some payload =>
          match claim_sub payload with
          | None => raise credentials_exception
          | Some username =>
              user <- gets (find_user_by_username username) ;;
              match user with
              | None => raise credentials_exception
              | Some u => ret u
              end
          end
      end
  end.

(** [add_book] (POST /books), behind [Depends(get_current_user)]:
    the row is built from [book.model_dump()], whose [genre] is a [Genre] member. *)
Definition add_book (now : Z) (token : option Token) (body : BookCreateBody)
    : M Book.t :=
  _ <- get_current_user now token ;;
  let book := BookCreateSchema_parse body in
  existing_book <- gets (fun st =>
    find (fun b => String.eqb (Book.title b) (bc_title book)
                   && String.eqb (Book.author b) (bc_author book)) (books st)) ;;
  match existing_book with
  | Some _ => raise (mkExc 400 "Book with the same title and author already exists")
  | None =>
      insert_book (bc_title book) (bc_author book) (PyEnum (bc_genre book))
        (bc_year_published book) (bc_summary book)
  end.

(** [get_books] (GET /books). *)
Definition get_books (now : Z) (token : option Token) : M (list Book.t) :=
  _ <- get_current_user now token ;;
  gets books.

(** [get_book] (GET /books/{id}). *)
Definition get_book (now : Z) (token : option Token) (id : Z) : M Book.t :=
  _ <- get_current_user now token ;;
  book <- gets (find_book id) ;;
  match book with
  | None => raise (mkExc 404 "Book not found")
  | Some b => ret b
  end.

(** [delete_book] (DELETE /books/{id}). *)
Definition delete_book (now : Z) (token : option Token) (id : Z) : M Book.t :=
  _ <- get_current_user now token ;;
  existing_book <- gets (find_book id) ;;
  match existing_book with
  | None => raise (mkExc 404 "Book not found")
  | Some b =>
      _ <- delete_book_row b ;;
      ret b
  end.

(** [get_reviews] (GET /books/{id}/reviews): no check that the book exists. *)
Definition get_reviews (now : Z) (token : option Token) (id : Z)
    : M (list Review.t) :=
  _ <- get_current_user now token ;;
  gets (fun st => filter (fun r => Review.book_id r =? id) (reviews st)).

End Server.

(** ** llama3_model.py: [recommend_books] *)

(** Python's [str.isspace] on ASCII, which is also what [\s] matches in a
    [str] pattern: tab to carriage return, the four separators 0x1C-0x1F,
    and space. *)
Definition is_space (c : ascii) : bool :=
  let n := nat_of_ascii c in
  (Nat.leb 9 n && Nat.leb n 13) || (Nat.leb 28 n && Nat.leb n 32).

(** [re.sub(r'[\s]+', ' ', s)]; [in_run] says the previous character was
    whitespace already replaced. *)
Fixpoint collapse_ws (in_run : bool) (s : list ascii) : list ascii :=
  match s with
  | [] => []
  | c :: rest =>
      if is_space c
      then if in_run then collapse_ws true rest else " "%char :: collapse_ws true rest
      else c :: collapse_ws false rest
  end.

(** [s.split(';')]: [cur] is the reversed piece read so far. *)
Fixpoint split_semi_aux (cur : list ascii) (s : list ascii) : list (list ascii) :=
  match s with
  | [] => [rev cur]
  | c :: rest =>
      if Ascii.eqb c ";"%char then rev cur :: split_semi_aux [] rest
      else split_semi_aux (c :: cur) rest
  end.

Definition split_semi (s : list ascii) : list (list ascii) := split_semi_aux [] s.

Fixpoint lstrip (s : list ascii) : list ascii :=
  match s with
  | [] => []
  | c :: rest => if is_space c then lstrip rest else s
  end.

(** [t.strip()]. *)
Definition strip (s : list ascii) : list ascii := rev (lstrip (rev (lstrip s))).

(** [recommend_books(interested_genre)] where the model replied [content]. *)
Definition recommend_books (content : string) : list string :=
  let result := collapse_ws false (list_ascii_of_string content) in
  map (fun title => string_of_list_ascii (strip title)) (split_semi result).

(** [get_recommendations] (GET /recommendations): the current user is
    resolved (the route dependency and the parameter share one call), then
    [recommend_books] runs on the model's reply [llm_reply]. *)
Definition get_recommendations (SECRET_KEY : string) (now : Z)
    (token : option Token) (llm_reply : string) : M (list string) :=
  current_user <- get_current_user SECRET_KEY now token ;;
  ret (recommend_books llm_reply).

(** * Properties *)

Definition token_exp (t : Token) : option Z :=
  match t with
  | TMalformed => None
  | TSigned c _ _ => claim_exp c
  end.

(** Number of [';'] in a string. *)
Fixpoint count_semi (s : list ascii) : nat :=
  match s with
  | [] => O
  | c :: rest => ((if Ascii.eqb c ";"%char then 1 else 0) + count_semi rest)%nat
  end.

(** Neither the first nor the last character is whitespace. *)
Definition edge_ok (s : list ascii) : bool :=
  match s with [] => true | c :: _ => negb (is_space c) end
  && match rev s with [] => true | c :: _ => negb (is_space c) end.

(** Invariants of the database that the primary keys and sequences keep. *)
Definition user_ids_ok (st : DB) : Prop :=
  Forall (fun u => User.id u < next_user_id st) (users st)
  /\ NoDup (map User.id (users st)).

Definition ratings_ok (st : DB) : Prop :=
  Forall (fun r => 1 <= Review.rating r <= 5) (reviews st).

(** ** A small database to run the handlers on *)

Definition key0 : string := "change-me".

(** A stand-in for bcrypt that hashes deterministically. *)
Definition demo_hash (pw : string) : string := "h:" ++ pw.
Definition demo_verify (pw hashed : string) : bool := String.eqb (demo_hash pw) hashed.

Definition alice : User.t := User.mk 7 "alice" "alice@example.com" (demo_hash "pw") Fantasy USER.
Definition root : User.t := User.mk 8 "root" "root@example.com" (demo_hash "pw2") History ADMIN.
Definition dune : Book.t :=
  Book.mk 1 "Dune" "Frank Herbert" "Science Fiction" 1965 (Some "A desert planet.").

Definition db0 : DB := mkDB [alice; root] [dune] [] 9 2 1.

(** [db0] after alice rated Dune 5. *)
Definition db_reviewed : DB :=
  mkDB [alice; root] [dune] [Review.mk 1 1 7 (Some "great") 5] 9 2 2.

(** Dune rated 3, 4 and 5. *)
Definition db_three : DB :=
  mkDB [alice; root] [dune]
       [Review.mk 1 1 7 (Some "ok") 3; Review.mk 2 1 8 (Some "good") 4;
        Review.mk 3 1 9 (Some "great") 5] 9 2 4.

(** Tokens minted by [login] at time 0. *)
Definition tok_alice : Token :=
  create_access_token key0 0 (mkClaims (Some 7) (Some "alice") None) (Some 1800).
Definition tok_root : Token :=
  create_access_token key0 0 (mkClaims (Some 8) (Some "root") None) (Some 1800).

Definition mallory_admin : UserCreate :=
  mkUserCreate "mallory" "pw3" "mallory@example.com" Horror ADMIN.

Definition dune_update : BookCreateBody :=
  mkBookCreateBody "Dune" "Frank Herbert" Science_Fiction 1965 Omitted.


(** A token carrying only a ["sub"] claim, valid until time 1800. *)
Definition tok_sub_only : Token :=
  jwt_encode key0 (mkClaims None (Some "alice") (Some 1800)).

Definition carol_dup : UserCreate :=
  mkUserCreate "carol" "pw4" "alice@example.com" Poetry USER.

Definition emma_body : BookCreateBody :=
  mkBookCreateBody "Emma" "Jane Austen" Classic 1815 Omitted.

Definition dave : UserCreate :=
  mkUserCreate "dave" "pw5" "dave@example.com" Mystery USER.
Definition dave_row : User.t :=
  User.mk 9 "dave" "dave@example.com" (demo_hash "pw5") Mystery USER.
Definition db_dave : DB := mkDB [alice; root; dave_row] [dune] [] 10 2 1.

Definition review_fine : ReviewCreateBody := mkReviewCreateBody "fine" (JInt 4).
Definition rv_root : Review.t := Review.mk 2 1 8 (Some "fine") 4.

(** [db_reviewed] after root rated Dune 4. *)
Definition db_two : DB :=
  mkDB [alice; root] [dune] [Review.mk 1 1 7 (Some "great") 5; rv_root] 9 2 3.

(** Reviews of Dune numbered from [start], one per user, with the given
    ratings. *)
Fixpoint dune_reviews (start : Z) (ratings : list Z) : list Review.t :=
  match ratings with
  | [] => []
  | r :: rest => Review.mk start 1 start None r :: dune_reviews (start + 1) rest
  end.

(** Dune rated 37 times 1 and 3 times 2: mean 43/40 = 1.075. *)
Definition db_mean_1075 : DB :=
  mkDB [alice; root] [dune] (dune_reviews 1 (repeat 1 37 ++ [2; 2; 2])) 9 2 41.

(** Dune rated 5 times 1 and 3 times 2: mean 11/8 = 1.375. *)
Definition db_mean_1375 : DB :=
  mkDB [alice; root] [dune] (dune_reviews 1 [1; 1; 1; 1; 1; 2; 2; 2]) 9 2 9.

Section Properties.

Variable SECRET_KEY : string.

(** ** Reading the user does not touch the database *)

Lemma get_current_user_state (now : Z) (tok : option Token) (st : DB) :
  snd (get_current_user SECRET_KEY now tok st) = st.
Proof.
  unfold get_current_user, bind, gets, raise, ret.
  destruct tok as [t|]; [|reflexivity].
  destruct (jwt_decode SECRET_KEY now t) as [p|]; [|reflexivity].
  destruct (claim_user_id p) as [uid|]; [|reflexivity].
  destruct (find_user_by_id uid st); reflexivity.
Qed.

Lemma get_current_user_status (now : Z) (tok : option Token) (st : DB) e :
  fst (get_current_user SECRET_KEY now tok st) = Raise e -> status_code e = 401.
Proof.
  unfold get_current_user, bind, gets, raise, ret.
  destruct tok as [t|]; [|simpl; intros H; inversion H; reflexivity].
  destruct (jwt_decode SECRET_KEY now t) as [p|];
    [|simpl; intros H; inversion H; reflexivity].
  destruct (claim_user_id p) as [uid|]; [|simpl; intros H; inversion H; reflexivity].
  destruct (find_user_by_id uid st); simpl; intros H; inversion H; reflexivity.
Qed.

(** Case on the user resolution of a request, whose database is unchanged. *)
Ltac auth_cases now tok st u e :=
  let Hst := fresh "Hst" in
  pose proof (get_current_user_state now tok st) as Hst;
  destruct (get_current_user SECRET_KEY now tok st) as [[u|e] ?] eqn:?;
  simpl in Hst; subst.

(** ** C2: token lifetime *)

(** C2 (amended): [create_access_token] called without a ttl, or with a zero
    [timedelta], sets ["exp"] to issue time + 15 minutes; with a non-zero
    ttl [d] it sets issue time + [d]; a token minted by [login] expires at
    issue time + 30 minutes. *)
Theorem C2_token_expiry (verify_password : string -> string -> bool)
    (now : Z) (data : Claims) (form : OAuth2PasswordRequestForm) (st : DB)
    (resp : TokenResponse) (st' : DB)
    (Hlogin : login SECRET_KEY verify_password now form st = (Ok resp, st')) :
  token_exp (create_access_token SECRET_KEY now data None) = Some (now + 15 * 60)
  /\ token_exp (create_access_token SECRET_KEY now data (Some 0)) = Some (now + 15 * 60)
  /\ (forall d, d <> 0 ->
        token_exp (create_access_token SECRET_KEY now data (Some d)) = Some (now + d))
  /\ token_exp (access_token resp) = Some (now + 30 * 60).
Proof.
  split; [reflexivity|]. split; [reflexivity|]. split.
  - intros d Hd. unfold create_access_token, py_truthy_delta.
    rewrite (proj2 (Z.eqb_neq d 0) Hd). reflexivity.
  - unfold login, bind, gets, raise, ret in Hlogin.
    destruct (find_user_by_username (form_username form) st) as [u|];
      [|discriminate].
    destruct (negb (verify_password (form_password form) (User.password u)));
      [discriminate|].
    inversion Hlogin; subst. reflexivity.
Qed.

(** ** C3: identity before role *)

(** C3: on the admin-gated [generate_summary], a request whose user cannot be
    resolved (no token, a malformed, forged or expired token, no [user_id]
    claim, or a deleted user) fails with that 401 exception, and a request
    whose resolved user has the [user] role fails with 403. *)
Theorem C3_identity_before_role (now : Z) (tok : option Token) (id : Z)
    (book_content llm_reply : string) (st : DB) :
  match fst (get_current_user SECRET_KEY now tok st) with
  | Raise e =>
      fst (generate_summary SECRET_KEY now tok id book_content llm_reply st) = Raise e
      /\ status_code e = 401
  | Ok u =>
      User.role u = USER ->
      fst (generate_summary SECRET_KEY now tok id book_content llm_reply st)
      = Raise (mkExc 403 "Admin access is required")
  end.
Proof.
  pose proof (get_current_user_status now tok st) as Hs.
  cbv [generate_summary admin_dependencies bind].
  auth_cases now tok st u e; simpl in *.
  - intros Hrole. unfold require_admin. rewrite Hrole. reflexivity.
  - split; [reflexivity|]. apply Hs. reflexivity.
Qed.

(** ** C4: the too-short sentinel is never persisted *)

(** C4: when the model's reply contains the sentinel ["NONE"],
    [generate_summary] leaves the database unchanged whatever happens, and an
    admin request on an existing book fails with 400. *)
Theorem C4_sentinel_not_persisted (now : Z) (tok : option Token) (id : Z)
    (book_content llm_reply : string) (st : DB) (u : User.t)
    (Hnone : str_contains "NONE" llm_reply = true) :
  snd (generate_summary SECRET_KEY now tok id book_content llm_reply st) = st
  /\ (fst (get_current_user SECRET_KEY now tok st) = Ok u ->
      User.role u = ADMIN -> find_book id st <> None ->
      fst (generate_summary SECRET_KEY now tok id book_content llm_reply st)
      = Raise (mkExc 400 "Please provide enough book content to generate a summary.")).
Proof.
  cbv [generate_summary admin_dependencies bind].
  auth_cases now tok st v e; simpl.
  - unfold require_admin.
    destruct (role_eqb (User.role v) ADMIN) eqn:Hr; simpl.
    + unfold gets, raise, ret, generate_book_summary. rewrite Hnone.
      destruct (find_book id st); split; try reflexivity;
        intros Hv _ Hb; try reflexivity; contradiction.
    + split; [reflexivity|]. intros Hv Ha _. inversion Hv; subst.
      rewrite Ha in Hr. discriminate.
  - split; [reflexivity|]. intros H; discriminate.
Qed.

(** ** C9: updating a book *)

Lemma find_map_replace {A} (p : A -> bool) (l : list A) (x b : A) :
  find p l = Some x -> p b = true ->
  find p (map (fun y => if p y then b else y) l) = Some b.
Proof.
  intros Hf Hb. induction l as [|y l IH]; simpl in *; [discriminate|].
  destruct (p y) eqn:Hy; simpl.
  - rewrite Hb. reflexivity.
  - rewrite Hy. apply IH, Hf.
Qed.

Lemma find_book_id (bid : Z) (st : DB) (b : Book.t) :
  find_book bid st = Some b -> Book.id b = bid.
Proof.
  unfold find_book. intros H. apply find_some in H. apply Z.eqb_eq, H.
Qed.


(** ** C6: average rating *)

Lemma round_half_even_spec (a b : Z) :
  0 < b -> 2 * Z.abs (a - round_half_even a b * b) <= b.
Proof.
  intros Hb. unfold round_half_even.
  pose proof (Z.div_mod a b ltac:(lia)) as Hdm.
  pose proof (Z.mod_pos_bound a b Hb) as Hr.
  set (q := a / b) in *. set (r := a mod b) in *.
  assert (E0 : a - q * b = r) by lia.
  assert (E1 : a - (q + 1) * b = r - b) by lia.
  destruct (2 * r <? b) eqn:H1; [rewrite E0; lia|].
  destruct (b <? 2 * r) eqn:H2; [rewrite E1; lia|].
  apply Z.ltb_ge in H1. apply Z.ltb_ge in H2.
  destruct (Z.even q); [rewrite E0 | rewrite E1]; lia.
Qed.

Lemma floor_log2_div_spec (a q : Z) :
  0 < a -> 0 < q -> pow2_le (floor_log2_div a q) a q = true.
Proof.
  intros Ha Hq. unfold floor_log2_div.
  set (k := Z.log2 a - Z.log2 q).
  destruct (pow2_le k a q) eqn:E; [exact E|].
  destruct (Z.log2_spec a Ha) as [Ha1 _].
  destruct (Z.log2_spec q Hq) as [_ Hq2].
  pose proof (Z.log2_nonneg a). pose proof (Z.log2_nonneg q).
  unfold pow2_le. destruct (0 <=? k - 1) eqn:Hk.
  - apply Z.leb_le in Hk. apply Z.leb_le.
    assert (Hp : 2 ^ Z.succ (Z.log2 q) * 2 ^ (k - 1) = 2 ^ Z.log2 a).
    { rewrite <- Z.pow_add_r by lia. f_equal. unfold k. lia. }
    assert (0 <= 2 ^ (k - 1)) by (apply Z.pow_nonneg; lia).
    nia.
  - apply Z.leb_gt in Hk. apply Z.leb_le.
    assert (Hp : 2 ^ Z.log2 a * 2 ^ (- (k - 1)) = 2 ^ Z.succ (Z.log2 q)).
    { rewrite <- Z.pow_add_r by lia. f_equal. unfold k. lia. }
    assert (0 <= 2 ^ (- (k - 1))) by (apply Z.pow_nonneg; lia).
    nia.
Qed.

(** A quotient in [1,5] does not overflow, and rounding it to a double and
    then to hundredths stays within half a hundredth plus [100 / 2^51] of
    the exact value. *)
Lemma int_truediv_mean (p q : Z) :
  0 < q -> q <= p <= 5 * q ->
  exists x, int_truediv p q = Some x
    /\ 2 ^ 51 * Z.abs (100 * p - round2_float x * q) <= (2 ^ 50 + 100) * q.
Proof.
  intros Hq Hp. unfold int_truediv.
  rewrite (proj2 (Z.eqb_neq p 0)) by lia.
  rewrite Z.abs_eq by lia.
  pose proof (floor_log2_div_spec p q ltac:(lia) Hq) as Hk.
  set (k := floor_log2_div p q) in *.
  assert (Hk2 : k <= 2).
  { unfold pow2_le in Hk. destruct (0 <=? k) eqn:H0; [|apply Z.leb_gt in H0; lia].
    apply Z.leb_le in H0. apply Z.leb_le in Hk.
    destruct (Z.le_gt_cases k 2) as [|H3]; [assumption|].
    exfalso. assert (8 <= 2 ^ k) by (change 8 with (2 ^ 3); apply Z.pow_le_mono_r; lia).
    nia. }
  set (e := Z.max (k - 52) (-1074)).
  assert (He : e <= -50) by (unfold e; lia).
  replace (Z.max (- e) 0) with (- e) by lia.
  replace (Z.max e 0) with 0 by lia.
  rewrite Z.pow_0_r, Z.mul_1_r.
  set (P := 2 ^ (- e)).
  set (B := 2 ^ 50).
  assert (HP : B <= P) by (unfold B, P; apply Z.pow_le_mono_r; lia).
  assert (HB : 200 <= B) by (apply Z.leb_le; reflexivity).
  assert (H51 : 2 ^ 51 = 2 * B) by reflexivity.
  assert (Hbig : 8 <= 2 ^ 1024) by (change 8 with (2 ^ 3); apply Z.pow_le_mono_r; lia).
  pose proof (round_half_even_spec (p * P) q Hq) as Hm.
  set (m := round_half_even (p * P) q) in *.
  assert (Hm2 : m * q <= 5 * q * P + q).
  { destruct (Z.abs_spec (p * P - m * q)) as [[_ E]|[_ E]]; rewrite E in Hm; nia. }
  assert (Hm3 : m <= 5 * P + 1) by nia.
  replace (0 <=? e) with false by (symmetry; apply Z.leb_gt; lia).
  replace (2 ^ 1024 * P <=? m) with false by (symmetry; apply Z.leb_gt; nia).
  exists (Z.sgn p * m, e). split; [reflexivity|].
  rewrite Z.sgn_pos, Z.mul_1_l by lia.
  unfold round2_float.
  replace (0 <=? e) with false by (symmetry; apply Z.leb_gt; lia).
  fold P.
  pose proof (round_half_even_spec (100 * m) P ltac:(lia)) as Hh.
  set (h := round_half_even (100 * m) P) in *.
  assert (Hh' : q * (2 * Z.abs (100 * m - h * P)) <= q * P)
    by (apply Z.mul_le_mono_nonneg_l; lia).
  assert (H1 : 2 * P * Z.abs (100 * p - h * q) <= (P + 100) * q).
  { destruct (Z.abs_spec (p * P - m * q)) as [[_ E1]|[_ E1]]; rewrite E1 in Hm;
    destruct (Z.abs_spec (100 * m - h * P)) as [[_ E2]|[_ E2]]; rewrite E2 in Hh';
    destruct (Z.abs_spec (100 * p - h * q)) as [[_ E3]|[_ E3]]; rewrite E3; nia. }
  assert (H2 : B * (2 * P * Z.abs (100 * p - h * q)) <= B * ((P + 100) * q))
    by (apply Z.mul_le_mono_nonneg_l; lia).
  assert (H3 : B * 100 * q <= P * 100 * q) by nia.
  apply (Z.mul_le_mono_pos_l _ _ P); [lia|].
  rewrite H51. nia.
Qed.

Lemma sum_ratings_bounds (rs : list Review.t) (acc : Z) :
  Forall (fun r => 1 <= Review.rating r <= 5) rs ->
  acc + Z.of_nat (length rs)
  <= fold_left (fun acc r => acc + Review.rating r) rs acc
  <= acc + 5 * Z.of_nat (length rs).
Proof.
  revert acc. induction rs as [|r rs IH]; intros acc HF; simpl; [lia|].
  inversion HF as [|? ? Hr HF']; subst.
  specialize (IH (acc + Review.rating r) HF'). lia.
Qed.

Lemma mean_float_bound (rs : list Review.t) :
  rs <> [] -> Forall (fun r => 1 <= Review.rating r <= 5) rs ->
  exists x, int_truediv (sum_ratings rs) (Z.of_nat (length rs)) = Some x
    /\ 2 ^ 51 * Z.abs (100 * sum_ratings rs - round2_float x * Z.of_nat (length rs))
       <= (2 ^ 50 + 100) * Z.of_nat (length rs).
Proof.
  intros Hne HF. apply int_truediv_mean.
  - destruct rs; [contradiction|simpl; lia].
  - pose proof (sum_ratings_bounds rs 0 HF). unfold sum_ratings. lia.
Qed.

(** C6 (corrected): for an existing book, [get_book_summary] reports ["NA"]
    when the book has no review, and ["NA"] is not the number 0; otherwise,
    with the stored ratings in [1,5], it reports [round(total / n, 2)] taken
    on the double nearest to [total / n]: a number of hundredths within half
    a hundredth plus [100 / 2^51] of the mean. *)
Theorem C6_average_rating (now : Z) (tok : option Token) (book_id : Z)
    (st : DB) (u : User.t) (b : Book.t)
    (Hu : fst (get_current_user SECRET_KEY now tok st) = Ok u)
    (Hb : find_book book_id st = Some b) (Hr : ratings_ok st) :
  let rs := filter (fun r => Review.book_id r =? book_id) (reviews st) in
  (rs = [] ->
   get_book_summary SECRET_KEY now tok book_id st
   = (Ok (mkBookSummary (Book.summary b) NA), st))
  /\ (rs <> [] ->
      exists x h,
        int_truediv (sum_ratings rs) (Z.of_nat (length rs)) = Some x
        /\ h = round2_float x
        /\ get_book_summary SECRET_KEY now tok book_id st
           = (Ok (mkBookSummary (Book.summary b) (Avg h)), st)
        /\ 2 ^ 51 * Z.abs (100 * sum_ratings rs - h * Z.of_nat (length rs))
           <= (2 ^ 50 + 100) * Z.of_nat (length rs))
  /\ NA <> Avg 0.
Proof.
  intros rs.
  assert (HF : Forall (fun r => 1 <= Review.rating r <= 5) rs).
  { unfold ratings_ok in Hr. rewrite Forall_forall in *. intros r Hin.
    apply Hr. unfold rs in Hin. apply filter_In in Hin. apply Hin. }
  cbv [get_book_summary bind].
  auth_cases now tok st v e; simpl in Hu; [|discriminate].
  unfold gets, raise, ret. rewrite Hb. fold rs. clearbody rs.
  split; [|split; [|discriminate]].
  - intros ->. reflexivity.
  - intros Hne. destruct (mean_float_bound rs Hne HF) as (x & Hx & Hbound).
    exists x, (round2_float x). split; [exact Hx|]. split; [reflexivity|].
    split; [|exact Hbound].
    destruct rs as [|r0 rs']; [contradiction|]. rewrite Hx. reflexivity.
Qed.

(** ** C1 and C5: submitting a review *)

(** The [reviews] table has no unique constraint: an insert for an existing
    book always succeeds, whatever reviews exist for the pair. *)
Lemma insert_review_total (st : DB) (bid uid : Z) (txt : option string) (r : Z) :
  find_book bid st <> None ->
  exists rv st', insert_review bid uid txt r st = (Ok rv, st')
                 /\ reviews st' = reviews st ++ [rv]
                 /\ Review.book_id rv = bid /\ Review.user_id rv = uid
                 /\ Review.rating rv = r.
Proof.
  unfold insert_review. destruct (find_book bid st); [|contradiction].
  intros _. eexists _, _. split; [reflexivity|]. repeat split.
Qed.

(** C1 (amended): once a user has reviewed an existing book, a further
    well-formed submission by that user for that book fails with 400 and
    leaves the database unchanged; the storage layer itself accepts any
    insert for an existing book, duplicate pair or not. *)
Theorem C1_duplicate_review_rejected (now : Z) (tok : option Token) (id : Z)
    (body : ReviewCreateBody) (st : DB) (u : User.t)
    (Hu : fst (get_current_user SECRET_KEY now tok st) = Ok u)
    (Hr : pydantic_int (rc_rating body) <> None)
    (Hb : find_book id st <> None)
    (Hd : find_review id (User.id u) st <> None) :
  add_review SECRET_KEY now tok id body st
  = (Raise (mkExc 400 "You can only rate a book once."), st)
  /\ (forall st0 bid uid txt r, find_book bid st0 <> None ->
      exists rv st1, insert_review bid uid txt r st0 = (Ok rv, st1)
                     /\ reviews st1 = reviews st0 ++ [rv]).
Proof.
  split.
  - cbv [add_review add_review_check bind].
    auth_cases now tok st v e; simpl in Hu; [|discriminate].
    inversion Hu; subst v.
    destruct (pydantic_int (rc_rating body)) as [z|]; [|contradiction].
    unfold gets, raise, ret.
    destruct (find_book id st); [|contradiction].
    destruct (find_review id (User.id u) st); [reflexivity|contradiction].
  - intros st0 bid uid txt r Hb0.
    destruct (insert_review_total st0 bid uid txt r Hb0) as (rv & st1 & H1 & H2 & _).
    exists rv, st1. split; assumption.
Qed.

(** C5 (amended): for an authenticated user's first review of an existing
    book, a rating that the [int] schema field rejects (a float with a
    fractional part such as 3.5) fails with 422 before the handler runs; an
    integer rating in [1,5] is stored as given; any other integer fails with
    400 ("Rating must be between 1 and 5"); and a float is rejected by the
    schema exactly when it has a fractional part. *)
Theorem C5_rating_acceptance (now : Z) (tok : option Token) (id : Z)
    (body : ReviewCreateBody) (st : DB) (u : User.t)
    (Hu : fst (get_current_user SECRET_KEY now tok st) = Ok u)
    (Hb : find_book id st <> None)
    (Hd : find_review id (User.id u) st = None) :
  match pydantic_int (rc_rating body) with
  | None => add_review SECRET_KEY now tok id body st = (Raise request_validation_error, st)
  | Some z =>
      (1 <= z <= 5 ->
       exists rv st', add_review SECRET_KEY now tok id body st = (Ok rv, st')
                      /\ Review.rating rv = z /\ reviews st' = reviews st ++ [rv])
      /\ (~ (1 <= z <= 5) ->
          add_review SECRET_KEY now tok id body st
          = (Raise (mkExc 400 "Rating must be between 1 and 5"), st))
  end
  /\ (forall q, pydantic_int (JFloat q) = None <-> Z.rem (Qnum q) (Zpos (Qden q)) <> 0).
Proof.
  split.
  - cbv [add_review add_review_check bind].
    auth_cases now tok st v e; simpl in Hu; [|discriminate].
    inversion Hu; subst v.
    destruct (pydantic_int (rc_rating body)) as [z|]; [|reflexivity].
    unfold gets, raise, ret.
    destruct (find_book id st) eqn:Hfb; [|contradiction]. rewrite Hd.
    unfold validate_rating, py_int.
    split.
    + intros Hz.
      assert (Hv : (z <? 1) || (z >? 5) = false).
      { apply orb_false_iff. rewrite Z.gtb_ltb. split; apply Z.ltb_ge; lia. }
      rewrite Hv.
      assert (Hfb' : find_book id st <> None) by (rewrite Hfb; discriminate).
      destruct (insert_review_total st id (User.id u) (Some (rc_review_text body)) z Hfb')
        as (rv & st1 & H1 & H2 & _ & _ & H5).
      exists rv, st1. unfold add_review_commit. rewrite H1. auto.
    + intros Hz.
      assert (Hv : (z <? 1) || (z >? 5) = true).
      { apply orb_true_iff.
        destruct (Z.lt_ge_cases z 1); [left; apply Z.ltb_lt; lia|].
        right. rewrite Z.gtb_ltb. apply Z.ltb_lt. lia. }
      rewrite Hv. reflexivity.
  - intros q. unfold pydantic_int.
    destruct (Z.rem (Qnum q) (Z.pos (Qden q)) =? 0) eqn:E.
    + apply Z.eqb_eq in E. split; [discriminate|]. intros H; contradiction.
    + apply Z.eqb_neq in E. split; [intros _; exact E|reflexivity].
Qed.

(** ** C8 and C10: registration *)

Variable get_password_hash : string -> string.
Variable verify_password : string -> string -> bool.

Lemma find_none_forall {A} (p : A -> bool) (l : list A) :
  find p l = None <-> (forall x, In x l -> p x = false).
Proof.
  induction l as [|y l IH]; simpl.
  - split; [intros _ x []|reflexivity].
  - destruct (p y) eqn:Hy; split.
    + discriminate.
    + intros H. rewrite (H y (or_introl eq_refl)) in Hy. discriminate.
    + intros Hf x [<-|Hx]; [exact Hy|]. apply IH; assumption.
    + intros H. apply IH. intros x Hx. apply H. right. exact Hx.
Qed.

Lemma existsb_find_none {A} (p : A -> bool) (l : list A) :
  find p l = None -> existsb p l = false.
Proof.
  intros H. rewrite find_none_forall in H.
  destruct (existsb p l) eqn:E; [|reflexivity].
  apply existsb_exists in E. destruct E as (x & Hx & Hp).
  rewrite (H x Hx) in Hp. discriminate.
Qed.

Lemma find_app_last {A} (p : A -> bool) (l : list A) (x : A) :
  find p l = None -> p x = true -> find p (l ++ [x]) = Some x.
Proof.
  intros H Hx. induction l as [|y l IH]; simpl in *.
  - rewrite Hx. reflexivity.
  - destruct (p y); [discriminate|]. apply IH, H.
Qed.

Definition fresh_user (user : UserCreate) (st : DB) : Prop :=
  find (fun u => String.eqb (User.username u) (uc_username user)
                 || String.eqb (User.email u) (uc_email user)) (users st) = None.

Lemma create_user_fresh (user : UserCreate) (st : DB) :
  fresh_user user st ->
  let u := User.mk (next_user_id st) (uc_username user) (uc_email user)
                   (get_password_hash (uc_password user))
                   (uc_interested_genre user) (uc_role user) in
  create_user get_password_hash user st
  = (Ok u, mkDB (users st ++ [u]) (books st) (reviews st)
               (next_user_id st + 1) (next_book_id st) (next_review_id st)).
Proof using get_password_hash.
  intros Hfresh u. unfold create_user, bind, gets. unfold fresh_user in Hfresh.
  rewrite Hfresh. unfold insert_user. simpl.
  rewrite (existsb_find_none _ _ Hfresh). reflexivity.
Qed.

(** C8 (amended): registering a fresh username and email succeeds with
    status 200 (the route sets no status code) and the body is the
    [UserSchema] projection of the stored user: its id, username, email,
    genre and role, with no password field; the stored password is the
    hash. *)
Theorem C8_register_response (user : UserCreate) (st : DB)
    (Hfresh : fresh_user user st) :
  exists u st',
    post_users get_password_hash user st = (mkResponse 200 (UserSchema_dump u), st')
    /\ map fst (UserSchema_dump u) = ["id"; "username"; "email"; "interested_genre"; "role"]
    /\ ~ In "password" (map fst (UserSchema_dump u))
    /\ users st' = users st ++ [u]
    /\ User.password u = get_password_hash (uc_password user).
Proof using get_password_hash.
  pose proof (create_user_fresh user st Hfresh) as H. simpl in H.
  eexists _, _. unfold post_users, run_route. rewrite H.
  split; [reflexivity|]. split; [reflexivity|].
  split; [simpl; intros [E|[E|[E|[E|[E|[]]]]]]; discriminate E|].
  split; reflexivity.
Qed.


(** ** C7: recommendations *)

Lemma collapse_ws_count (b : bool) (s : list ascii) :
  count_semi (collapse_ws b s) = count_semi s.
Proof.
  revert b. induction s as [|c s IH]; intros b; simpl; [reflexivity|].
  destruct (is_space c) eqn:Hc.
  - assert (Ascii.eqb c ";"%char = false).
    { destruct (Ascii.eqb_spec c ";"%char); [subst; discriminate|reflexivity]. }
    rewrite H. destruct b; simpl; apply IH.
  - simpl. rewrite IH. reflexivity.
Qed.

Lemma split_semi_aux_length (cur s : list ascii) :
  length (split_semi_aux cur s) = S (count_semi s).
Proof.
  revert cur. induction s as [|c s IH]; intros cur; simpl; [reflexivity|].
  destruct (Ascii.eqb c ";"%char); simpl; rewrite IH; reflexivity.
Qed.

Lemma lstrip_head (s : list ascii) :
  match lstrip s with [] => true | c :: _ => negb (is_space c) end = true.
Proof.
  induction s as [|c s IH]; simpl; [reflexivity|].
  destruct (is_space c) eqn:Hc; [exact IH|]. rewrite Hc. reflexivity.
Qed.

Lemma lstrip_suffix (s : list ascii) : exists p, s = p ++ lstrip s.
Proof.
  induction s as [|c s IH]; simpl; [exists []; reflexivity|].
  destruct (is_space c).
  - destruct IH as [p Hp]. exists (c :: p). simpl. f_equal. exact Hp.
  - exists []. reflexivity.
Qed.

Lemma strip_edge_ok (s : list ascii) : edge_ok (strip s) = true.
Proof.
  unfold edge_ok, strip. rewrite rev_involutive.
  rewrite (lstrip_head (rev (lstrip s))), andb_true_r.
  destruct (lstrip_suffix (rev (lstrip s))) as [p Hp].
  set (z := lstrip (rev (lstrip s))) in *.
  assert (Hy : lstrip s = rev z ++ rev p).
  { rewrite <- rev_app_distr, <- Hp, rev_involutive. reflexivity. }
  pose proof (lstrip_head s) as Hh. rewrite Hy in Hh.
  destruct (rev z) as [|c r]; [reflexivity|]. exact Hh.
Qed.

(** C7 (amended): [recommend_books] keeps every piece of the ';'-split of
    the whitespace-collapsed reply: it returns one more title than the reply
    has ';' (empty pieces included), each with no leading or trailing
    whitespace. *)
Theorem C7_recommend_books (content : string) :
  length (recommend_books content) = S (count_semi (list_ascii_of_string content))
  /\ (forall t, In t (recommend_books content) ->
        edge_ok (list_ascii_of_string t) = true).
Proof.
  unfold recommend_books. split.
  - rewrite length_map. unfold split_semi.
    rewrite split_semi_aux_length, collapse_ws_count. reflexivity.
  - intros t Ht. apply in_map_iff in Ht. destruct Ht as (x & <- & _).
    rewrite list_ascii_of_string_of_list_ascii. apply strip_edge_ok.
Qed.

End Properties.

(** * Witnesses and counterexamples *)

(** C2 fails as stated: without a ttl the token lives 15 minutes, not 30. *)
Lemma C2_default_ttl_cex :
  token_exp (create_access_token key0 0 (mkClaims (Some 7) (Some "alice") None) None)
  <> Some (0 + 30 * 60).
Proof. vm_compute. discriminate. Qed.

Lemma C2_token_expiry_witness :
  login key0 demo_verify 0 (mkForm "alice" "pw") db0
  = (Ok (mkTokenResponse tok_alice "bearer"), db0)
  /\ token_exp tok_alice = Some (0 + 30 * 60).
Proof.
  assert (H : login key0 demo_verify 0 (mkForm "alice" "pw") db0
              = (Ok (mkTokenResponse tok_alice "bearer"), db0)) by reflexivity.
  split; [exact H|].
  destruct (C2_token_expiry key0 demo_verify 0 (mkClaims None None None)
              (mkForm "alice" "pw") db0 _ db0 H) as (_ & _ & _ & E).
  exact E.
Defined.

(** At time 2000 alice's token has expired: 401, not 403; within its
    lifetime alice, a plain user, gets 403. *)
Lemma C3_identity_before_role_witness :
  (fst (generate_summary key0 2000 (Some tok_alice) 1 "text" "A summary." db0)
   = Raise credentials_exception /\ status_code credentials_exception = 401)
  /\ fst (generate_summary key0 10 (Some tok_alice) 1 "text" "A summary." db0)
     = Raise (mkExc 403 "Admin access is required").
Proof.
  split.
  - exact (C3_identity_before_role key0 2000 (Some tok_alice) 1 "text" "A summary." db0).
  - exact (C3_identity_before_role key0 10 (Some tok_alice) 1 "text" "A summary." db0
             eq_refl).
Defined.

Lemma C4_sentinel_not_persisted_witness :
  snd (generate_summary key0 10 (Some tok_root) 1 "short" "NONE" db0) = db0
  /\ fst (generate_summary key0 10 (Some tok_root) 1 "short" "NONE" db0)
     = Raise (mkExc 400 "Please provide enough book content to generate a summary.").
Proof.
  destruct (C4_sentinel_not_persisted key0 10 (Some tok_root) 1 "short" "NONE" db0 root
              ltac:(reflexivity)) as [H1 H2].
  split; [exact H1|].
  apply H2; [reflexivity | reflexivity | vm_compute; discriminate].
Defined.

(** C1 fails as stated: the [reviews] table does not reject a second row for
    a reviewed pair, and two submissions whose checks both run before either
    insert leave two reviews by alice for Dune. *)
Lemma C1_no_unique_constraint_cex :
  ~ (forall st bid uid txt r, find_review bid uid st <> None ->
       exists e, fst (insert_review bid uid txt r st) = Raise e)
  /\ match fst (add_review_check key0 10 (Some tok_alice) 1
                  (mkReviewCreateBody "first" (JInt 5)) db0),
           fst (add_review_check key0 10 (Some tok_alice) 1
                  (mkReviewCreateBody "second" (JInt 1)) db0) with
     | Ok row1, Ok row2 =>
         let st1 := snd (add_review_commit row1 db0) in
         let st2 := snd (add_review_commit row2 st1) in
         length (filter (fun r => (Review.book_id r =? 1) && (Review.user_id r =? 7))
                        (reviews st2)) = 2%nat
     | _, _ => False
     end.
Proof.
  split.
  - intros H.
    destruct (H db_reviewed 1 7 (Some "again") 4) as [e He];
      [vm_compute; discriminate|].
    vm_compute in He. discriminate.
  - vm_compute. reflexivity.
Defined.

Lemma C1_duplicate_review_rejected_witness :
  add_review key0 10 (Some tok_alice) 1 (mkReviewCreateBody "again" (JInt 4)) db_reviewed
  = (Raise (mkExc 400 "You can only rate a book once."), db_reviewed).
Proof.
  apply (C1_duplicate_review_rejected key0 10 (Some tok_alice) 1
           (mkReviewCreateBody "again" (JInt 4)) db_reviewed alice);
    [reflexivity | vm_compute; discriminate | vm_compute; discriminate
    | vm_compute; discriminate].
Defined.

(** C5 fails as stated: a rating of 3.5 is refused by the [int] schema
    field with 422, not by the rating check's 400. *)
Lemma C5_fractional_rating_cex :
  add_review key0 10 (Some tok_alice) 1 (mkReviewCreateBody "fine" (JFloat (7 # 2))) db0
  = (Raise request_validation_error, db0)
  /\ status_code request_validation_error <> 400.
Proof. split; [reflexivity | discriminate]. Defined.

Lemma C5_rating_acceptance_witness :
  (exists rv st', add_review key0 10 (Some tok_alice) 1
                    (mkReviewCreateBody "fine" (JInt 5)) db0 = (Ok rv, st')
                  /\ Review.rating rv = 5)
  /\ add_review key0 10 (Some tok_alice) 1 (mkReviewCreateBody "bad" (JInt 0)) db0
     = (Raise (mkExc 400 "Rating must be between 1 and 5"), db0).
Proof.
  split.
  - destruct (C5_rating_acceptance key0 10 (Some tok_alice) 1
                (mkReviewCreateBody "fine" (JInt 5)) db0 alice
                ltac:(reflexivity) ltac:(vm_compute; discriminate) ltac:(reflexivity))
      as [[Hin _] _].
    destruct (Hin ltac:(lia)) as (rv & st' & H1 & H2 & _).
    exists rv, st'. split; assumption.
  - destruct (C5_rating_acceptance key0 10 (Some tok_alice) 1
                (mkReviewCreateBody "bad" (JInt 0)) db0 alice
                ltac:(reflexivity) ltac:(vm_compute; discriminate) ltac:(reflexivity))
      as [[_ Hout] _].
    apply Hout. lia.
Defined.

(** C6 fails as stated: two means half-way between two hundredths, 1.075
    and 1.375, are reported as 1.07 and 1.38; the double nearest to the
    mean is rounded, not the mean, so no fixed rule for half-way cases of
    the mean gives both. *)
Lemma C6_float_tie_cex :
  get_book_summary key0 10 (Some tok_alice) 1 db_mean_1075
  = (Ok (mkBookSummary (Some "A desert planet.") (Avg 107)), db_mean_1075)
  /\ get_book_summary key0 10 (Some tok_alice) 1 db_mean_1375
     = (Ok (mkBookSummary (Some "A desert planet.") (Avg 138)), db_mean_1375)
  /\ 2 * (100 * sum_ratings (reviews db_mean_1075)) = 215 * 40
  /\ 2 * (100 * sum_ratings (reviews db_mean_1375)) = 275 * 8.
Proof.
  split; [vm_compute; reflexivity|]. split; [vm_compute; reflexivity|].
  split; vm_compute; reflexivity.
Defined.

Lemma C6_average_rating_witness :
  get_book_summary key0 10 (Some tok_alice) 1 db_three
  = (Ok (mkBookSummary (Some "A desert planet.") (Avg 400)), db_three)
  /\ get_book_summary key0 10 (Some tok_alice) 1 db0
     = (Ok (mkBookSummary (Some "A desert planet.") NA), db0).
Proof.
  split.
  - destruct (C6_average_rating key0 10 (Some tok_alice) 1 db_three alice dune
                ltac:(reflexivity) ltac:(reflexivity)
                ltac:(repeat constructor; simpl; lia)) as (_ & H2 & _).
    destruct (H2 ltac:(vm_compute; discriminate)) as (x & h & Hx & Hh & E & _).
    vm_compute in Hx. injection Hx as <-. vm_compute in Hh. subst h. exact E.
  - destruct (C6_average_rating key0 10 (Some tok_alice) 1 db0 alice dune
                ltac:(reflexivity) ltac:(reflexivity) ltac:(constructor))
      as (H1 & _ & _).
    exact (H1 ltac:(reflexivity)).
Defined.

(** C7 fails as stated: an empty entry is returned. *)
Lemma C7_empty_entry_cex :
  recommend_books "A;;B" = ["A"; ""; "B"]
  /\ ~ (forall content t, In t (recommend_books content) -> t <> "").
Proof.
  split; [reflexivity|].
  intros H. apply (H "A;;B" ""); [vm_compute; right; left; reflexivity | reflexivity].
Defined.

(** C8 fails as stated: the registration route answers 200, not 201. *)
Lemma C8_status_200_cex :
  resp_status (fst (post_users demo_hash mallory_admin db0)) = 200
  /\ resp_status (fst (post_users demo_hash mallory_admin db0)) <> 201.
Proof. split; [reflexivity | vm_compute; discriminate]. Defined.

Lemma C8_register_response_witness :
  exists u st', post_users demo_hash mallory_admin db0
                = (mkResponse 200 (UserSchema_dump u), st')
                /\ ~ In "password" (map fst (UserSchema_dump u)).
Proof.
  destruct (C8_register_response demo_hash mallory_admin db0 ltac:(reflexivity))
    as (u & st' & H1 & _ & H3 & _).
  exists u, st'. split; assumption.
Defined.



(** * Further properties of the handlers *)

Section Handlers.

Variable SECRET_KEY : string.

Lemma NoDup_map_inj {A B} (f : A -> B) (l : list A) (x y : A) :
  NoDup (map f l) -> In x l -> In y l -> f x = f y -> x = y.
Proof.
  induction l as [|a l IH]; simpl; [tauto|].
  intros Hnd Hx Hy Hf. inversion Hnd as [|? ? Hnotin Hnd']; subst.
  destruct Hx as [<-|Hx], Hy as [<-|Hy]; auto.
  - exfalso. apply Hnotin. rewrite Hf. apply in_map, Hy.
  - exfalso. apply Hnotin. rewrite <- Hf. apply in_map, Hx.
Qed.

(** Resolving the current user only reads the database, and every way it
    fails is a 401. *)
Theorem get_current_user_read_only (now : Z) (tok : option Token) (st : DB) :
  snd (get_current_user SECRET_KEY now tok st) = st
  /\ (forall e, fst (get_current_user SECRET_KEY now tok st) = Raise e ->
       status_code e = 401).
Proof.
  split; [apply get_current_user_state|]. intros e. apply get_current_user_status.
Qed.

(** A token minted with a non-zero ttl [d] decodes, under the same key, to
    its ["user_id"] and ["sub"] with expiry [now + d] until that time, and is
    refused after it. *)
Theorem token_decode_roundtrip (now : Z) (data : Claims) (d t : Z)
    (Hd : d <> 0) :
  jwt_decode SECRET_KEY t (create_access_token SECRET_KEY now data (Some d))
  = if now + d <? t then None
    else Some (mkClaims (claim_user_id data) (claim_sub data) (Some (now + d))).
Proof.
  unfold create_access_token, py_truthy_delta, jwt_encode, jwt_decode.
  rewrite (proj2 (Z.eqb_neq d 0) Hd). simpl.
  rewrite String.eqb_refl. reflexivity.
Qed.

(** The token returned by a successful [login] is refused with 401 once its
    30 minutes have passed. *)
Theorem login_token_expires (verify_password : string -> string -> bool)
    (now t : Z) (form : OAuth2PasswordRequestForm) (st : DB) (resp : TokenResponse)
    (Hlogin : fst (login SECRET_KEY verify_password now form st) = Ok resp)
    (Ht : now + 30 * 60 < t) :
  get_current_user SECRET_KEY t (Some (access_token resp)) st
  = (Raise credentials_exception, st).
Proof.
  unfold login, bind, gets, raise, ret in Hlogin.
  destruct (find_user_by_username (form_username form) st) as [u|] eqn:Hf;
    [|discriminate].
  destruct (negb (verify_password (form_password form) (User.password u)));
    [discriminate|].
  cbn -[create_access_token] in Hlogin. injection Hlogin as <-.
  unfold get_current_user. cbn -[create_access_token jwt_decode].
  rewrite token_decode_roundtrip by (unfold timedelta_minutes; lia).
  assert (He : (now + 1800 <? t) = true) by (apply Z.ltb_lt; lia).
  cbn -[Z.ltb]. rewrite He. reflexivity.
Qed.

(** When user ids are distinct (a primary key), the token returned by a
    successful [login] resolves, for its 30 minutes, to the user [login]
    found by name. *)
Theorem login_then_current_user (verify_password : string -> string -> bool)
    (now t : Z) (form : OAuth2PasswordRequestForm) (st : DB) (resp : TokenResponse)
    (Hids : NoDup (map User.id (users st)))
    (Hlogin : fst (login SECRET_KEY verify_password now form st) = Ok resp)
    (Ht : now <= t <= now + 30 * 60) :
  exists u, find_user_by_username (form_username form) st = Some u
            /\ get_current_user SECRET_KEY t (Some (access_token resp)) st = (Ok u, st).
Proof.
  unfold login, bind, gets, raise, ret in Hlogin.
  destruct (find_user_by_username (form_username form) st) as [u|] eqn:Hf;
    [|discriminate].
  destruct (negb (verify_password (form_password form) (User.password u)));
    [discriminate|].
  cbn -[create_access_token] in Hlogin. injection Hlogin as <-.
  exists u. split; [reflexivity|].
  unfold get_current_user. cbn -[create_access_token jwt_decode].
  rewrite token_decode_roundtrip by (unfold timedelta_minutes; lia).
  assert (He : (now + 1800 <? t) = false) by (apply Z.ltb_ge; lia).
  cbn -[find_user_by_id Z.ltb]. rewrite He. cbn -[find_user_by_id].
  assert (Hin : In u (users st)).
  { unfold find_user_by_username in Hf. apply find_some in Hf. apply Hf. }
  destruct (find_user_by_id (User.id u) st) as [x|] eqn:Hx.
  - unfold find_user_by_id in Hx. apply find_some in Hx. destruct Hx as [Hxin Hxid].
    apply Z.eqb_eq in Hxid.
    rewrite (NoDup_map_inj User.id (users st) x u Hids Hxin Hin Hxid). reflexivity.
  - unfold find_user_by_id in Hx. rewrite find_none_forall in Hx.
    specialize (Hx u Hin). rewrite Z.eqb_refl in Hx. discriminate.
Qed.

(** [whoami] resolves the user from ["sub"] alone: a signed, unexpired token
    naming an existing user but carrying no ["user_id"] is accepted by
    [whoami] and refused with 401 by [get_current_user]. *)
Theorem whoami_uses_sub (now e : Z) (name : string) (st : DB) (u : User.t)
    (Hu : find_user_by_username name st = Some u) (He : now <= e) :
  whoami SECRET_KEY now (Some (jwt_encode SECRET_KEY (mkClaims None (Some name) (Some e)))) st
  = (Ok u, st)
  /\ get_current_user SECRET_KEY now
       (Some (jwt_encode SECRET_KEY (mkClaims None (Some name) (Some e)))) st
     = (Raise credentials_exception, st).
Proof.
  assert (Hd : (e <? now) = false) by (apply Z.ltb_ge; lia).
  unfold whoami, get_current_user, jwt_encode, jwt_decode.
  rewrite String.eqb_refl. simpl. rewrite Hd. simpl.
  unfold bind, gets. rewrite Hu. split; reflexivity.
Qed.

(** Registration with a username or an email already in use fails with 400
    and leaves the database unchanged. *)
Theorem create_user_duplicate_rejected (get_password_hash : string -> string)
    (user : UserCreate) (st : DB) (x : User.t)
    (Hx : In x (users st))
    (Hdup : User.username x = uc_username user \/ User.email x = uc_email user) :
  create_user get_password_hash user st
  = (Raise (mkExc 400 "Username or email already registered"), st).
Proof.
  unfold create_user, bind, gets.
  destruct (find _ (users st)) eqn:Hf; [reflexivity|].
  rewrite find_none_forall in Hf. specialize (Hf x Hx).
  apply orb_false_iff in Hf. destruct Hf as [H1 H2].
  destruct Hdup as [E|E]; [rewrite E, String.eqb_refl in H1 | rewrite E, String.eqb_refl in H2];
    discriminate.
Qed.

(** A successful registration keeps user ids below the sequence and
    distinct. *)
Theorem create_user_keeps_user_ids (get_password_hash : string -> string)
    (user : UserCreate) (st st' : DB) (u : User.t)
    (Hinv : user_ids_ok st)
    (Hok : create_user get_password_hash user st = (Ok u, st')) :
  user_ids_ok st' /\ User.id u = next_user_id st.
Proof using.
  destruct Hinv as [Hlt Hnd].
  unfold create_user, bind, gets in Hok.
  destruct (find _ (users st)) eqn:Hf; [discriminate|].
  unfold insert_user in Hok. simpl in Hok.
  destruct (existsb _ (users st)); [discriminate|].
  inversion Hok; subst u st'. clear Hok. simpl. split; [|reflexivity].
  unfold user_ids_ok; simpl. split.
  - apply Forall_app. split.
    + rewrite Forall_forall in *. intros a Ha. specialize (Hlt a Ha). lia.
    + constructor; [simpl; lia | constructor].
  - rewrite map_app. simpl.
    apply NoDup_app; [exact Hnd | constructor; [intros []|constructor] |].
    intros i Hi [Hj|[]]. subst i. apply in_map_iff in Hi. destruct Hi as (a & Ha & Hin).
    rewrite Forall_forall in Hlt. specialize (Hlt a Hin). lia.
Qed.

(** [login] never writes; an unknown username, or a password the stored hash
    does not verify, fails with 400. *)
Theorem login_failures (verify_password : string -> string -> bool) (now : Z)
    (form : OAuth2PasswordRequestForm) (st : DB) :
  snd (login SECRET_KEY verify_password now form st) = st
  /\ (find_user_by_username (form_username form) st = None ->
      fst (login SECRET_KEY verify_password now form st)
      = Raise (mkExc 400 "Incorrect username or password"))
  /\ (forall u, find_user_by_username (form_username form) st = Some u ->
      verify_password (form_password form) (User.password u) = false ->
      fst (login SECRET_KEY verify_password now form st)
      = Raise (mkExc 400 "Incorrect username or password")).
Proof.
  unfold login, bind, gets, raise, ret.
  destruct (find_user_by_username (form_username form) st) as [v|] eqn:Hf.
  - destruct (verify_password (form_password form) (User.password v)) eqn:Hv;
      simpl; (split; [reflexivity|]); (split; [discriminate|]);
      intros u Hu Hw; inversion Hu; subst v; try reflexivity.
    rewrite Hv in Hw. discriminate.
  - simpl. split; [reflexivity|]. split; [reflexivity|discriminate].
Qed.

(** The user resolution reads only the [users] table. *)
Lemma get_current_user_users (now : Z) (tok : option Token) (st st' : DB) :
  users st' = users st ->
  get_current_user SECRET_KEY now tok st'
  = (fst (get_current_user SECRET_KEY now tok st), st').
Proof.
  intros Hu. unfold get_current_user, bind, gets, raise, ret.
  destruct tok as [t|]; [|reflexivity].
  destruct (jwt_decode SECRET_KEY now t) as [c|]; [|reflexivity].
  destruct (claim_user_id c) as [i|]; [|reflexivity].
  unfold find_user_by_id. rewrite Hu.
  destruct (find _ (users st)); reflexivity.
Qed.

Ltac auth_split now tok st u e :=
  let Hst := fresh "Hst" in
  pose proof (get_current_user_state SECRET_KEY now tok st) as Hst;
  destruct (get_current_user SECRET_KEY now tok st) as [[u|e] ?] eqn:?;
  simpl in Hst; subst.

(** Adding a book whose title and author are both those of a stored book
    fails with 400 and changes nothing. *)
Theorem add_book_duplicate_rejected (now : Z) (tok : option Token)
    (body : BookCreateBody) (st : DB) (u : User.t) (x : Book.t)
    (Hu : fst (get_current_user SECRET_KEY now tok st) = Ok u)
    (Hx : In x (books st))
    (Ht : Book.title x = body_title body) (Ha : Book.author x = body_author body) :
  add_book SECRET_KEY now tok body st
  = (Raise (mkExc 400 "Book with the same title and author already exists"), st).
Proof.
  cbv [add_book bind]. auth_split now tok st v e; simpl in Hu; [|discriminate].
  unfold gets. simpl.
  destruct (find _ (books st)) eqn:Hf; [reflexivity|].
  rewrite find_none_forall in Hf. specialize (Hf x Hx). simpl in Hf.
  rewrite Ht, Ha, !String.eqb_refl in Hf. discriminate.
Qed.


(** For an authenticated request, [delete_book] answers 404 for a missing
    book, 500 with nothing deleted for a book that has reviews, and otherwise
    returns the book and removes it, leaving the reviews alone. *)
Theorem delete_book_outcomes (now : Z) (tok : option Token) (id : Z) (st : DB)
    (u : User.t) (Hu : fst (get_current_user SECRET_KEY now tok st) = Ok u) :
  match find_book id st with
  | None => delete_book SECRET_KEY now tok id st = (Raise (mkExc 404 "Book not found"), st)
  | Some b =>
      (existsb (fun r => Review.book_id r =? id) (reviews st) = true ->
       delete_book SECRET_KEY now tok id st = (Raise integrity_error, st))
      /\ (existsb (fun r => Review.book_id r =? id) (reviews st) = false ->
          exists st', delete_book SECRET_KEY now tok id st = (Ok b, st')
                      /\ find_book id st' = None /\ reviews st' = reviews st)
  end.
Proof.
  cbv [delete_book bind]. auth_split now tok st v e; simpl in Hu; [|discriminate].
  unfold gets, raise, ret.
  destruct (find_book id st) as [b|] eqn:Hb; [|reflexivity].
  pose proof (find_book_id _ _ _ Hb) as Hid.
  unfold delete_book_row. rewrite Hid.
  split; intros E; rewrite E; [reflexivity|].
  eexists. split; [reflexivity|]. split; [|reflexivity].
  unfold find_book. simpl. apply (proj2 (find_none_forall _ _)).
  intros y Hy. apply filter_In in Hy. destruct Hy as [_ Hy].
  apply negb_true_iff in Hy. exact Hy.
Qed.

(** What a successful [add_review] did: the user was resolved, the book
    exists, the user had not reviewed it, and one review with a rating in
    [1,5] was appended with the next id of the sequence. *)
Lemma add_review_success (now : Z) (tok : option Token) (id : Z)
    (body : ReviewCreateBody) (st : DB) (rv : Review.t) (st' : DB) :
  add_review SECRET_KEY now tok id body st = (Ok rv, st') ->
  exists u,
    fst (get_current_user SECRET_KEY now tok st) = Ok u
    /\ find_book id st <> None
    /\ find_review id (User.id u) st = None
    /\ 1 <= Review.rating rv <= 5
    /\ Review.book_id rv = id /\ Review.user_id rv = User.id u
    /\ Review.id rv = next_review_id st
    /\ st' = mkDB (users st) (books st) (reviews st ++ [rv])
                  (next_user_id st) (next_book_id st) (next_review_id st + 1).
Proof.
  intros Hok. cbv [add_review add_review_check bind] in Hok.
  auth_split now tok st u e; [|discriminate].
  exists u. split; [reflexivity|].
  destruct (pydantic_int (rc_rating body)) as [z|]; [|discriminate].
  unfold gets, raise, ret in Hok.
  destruct (find_book id st) as [b|] eqn:Hb; [|discriminate].
  split; [discriminate|].
  destruct (find_review id (User.id u) st); [discriminate|].
  split; [reflexivity|].
  unfold validate_rating, py_int in Hok.
  destruct ((z <? 1) || (z >? 5)) eqn:Hz; [discriminate|].
  apply orb_false_iff in Hz. destruct Hz as [H1 H2].
  rewrite Z.gtb_ltb in H2. apply Z.ltb_ge in H1. apply Z.ltb_ge in H2.
  unfold add_review_commit, insert_review in Hok. rewrite Hb in Hok.
  inversion Hok; subst. simpl. repeat split; lia.
Qed.

(** Successful [add_review]s keep every stored rating in [1,5], the new one
    included. *)
Theorem add_review_keeps_ratings (now : Z) (tok : option Token) (id : Z)
    (body : ReviewCreateBody) (st : DB) (rv : Review.t) (st' : DB)
    (Hr : ratings_ok st)
    (Hok : add_review SECRET_KEY now tok id body st = (Ok rv, st')) :
  ratings_ok st' /\ 1 <= Review.rating rv <= 5.
Proof.
  destruct (add_review_success _ _ _ _ _ _ _ Hok)
    as (u & _ & _ & _ & Hrate & _ & _ & _ & ->).
  unfold ratings_ok in *. simpl. split; [|exact Hrate].
  apply Forall_app. split; [exact Hr|]. constructor; [exact Hrate|constructor].
Qed.

(** After a successful [add_review], [get_reviews] for that book returns
    the reviews it had and the new one, authored by the requesting user, in
    some order (the query has no [ORDER BY]). *)
Theorem add_review_then_get_reviews (now : Z) (tok : option Token) (id : Z)
    (body : ReviewCreateBody) (st : DB) (rv : Review.t) (st' : DB)
    (Hok : add_review SECRET_KEY now tok id body st = (Ok rv, st')) :
  (exists l, get_reviews SECRET_KEY now tok id st' = (Ok l, st')
             /\ Permutation l (filter (fun r => Review.book_id r =? id) (reviews st) ++ [rv]))
  /\ exists u, fst (get_current_user SECRET_KEY now tok st) = Ok u
               /\ Review.user_id rv = User.id u.
Proof.
  destruct (add_review_success _ _ _ _ _ _ _ Hok)
    as (u & Hu & _ & _ & _ & Hbid & Huid & _ & Hst').
  split; [|exists u; split; assumption].
  exists (filter (fun r => Review.book_id r =? id) (reviews st) ++ [rv]).
  split; [|apply Permutation_refl].
  cbv [get_reviews bind]. rewrite (get_current_user_users now tok st st');
    [|subst st'; reflexivity].
  rewrite Hu. unfold gets. subst st'. simpl.
  rewrite filter_app. simpl. rewrite Hbid, Z.eqb_refl. reflexivity.
Qed.

(** [get_reviews] does not check that the book exists: an authenticated
    request for an id no review points to returns the empty list, not 404. *)
Theorem get_reviews_no_404 (now : Z) (tok : option Token) (id : Z) (st : DB)
    (u : User.t) (Hu : fst (get_current_user SECRET_KEY now tok st) = Ok u)
    (Hnone : forall r, In r (reviews st) -> Review.book_id r <> id) :
  get_reviews SECRET_KEY now tok id st = (Ok [], st).
Proof.
  cbv [get_reviews bind]. auth_split now tok st v e; simpl in Hu; [|discriminate].
  unfold gets. f_equal. f_equal.
  induction (reviews st) as [|r rs IH]; [reflexivity|]. simpl.
  rewrite (proj2 (Z.eqb_neq _ _) (Hnone r (or_introl eq_refl))).
  apply IH. intros r' Hr'. apply Hnone. right. exact Hr'.
Qed.

Lemma float_average_bounds (rs : list Review.t) (x : Z * Z) :
  Forall (fun r => 1 <= Review.rating r <= 5) rs ->
  int_truediv (sum_ratings rs) (Z.of_nat (length rs)) = Some x ->
  rs <> [] -> 100 <= round2_float x <= 500.
Proof.
  intros HF Hx Hne.
  destruct (mean_float_bound rs Hne HF) as (x' & Hx' & Hb).
  rewrite Hx in Hx'. injection Hx' as <-.
  assert (Hn : 0 < Z.of_nat (length rs)) by (destruct rs; [contradiction|simpl; lia]).
  pose proof (sum_ratings_bounds rs 0 HF) as Hs. unfold sum_ratings in *.
  set (n := Z.of_nat (length rs)) in *.
  set (t := fold_left _ rs 0) in *.
  set (h := round2_float x) in *.
  change (2 ^ 51) with 2251799813685248 in Hb.
  change (2 ^ 50) with 1125899906842624 in Hb.
  set (X := h * n) in *.
  assert (HX : 99 * n < X < 501 * n).
  { destruct (Z.abs_spec (100 * t - X)) as [[_ E]|[_ E]]; rewrite E in Hb; lia. }
  unfold X in HX. split; nia.
Qed.

(** With every stored rating in [1,5], an average reported by
    [get_book_summary] lies between 1.00 and 5.00. *)
Theorem average_rating_bounds (now : Z) (tok : option Token) (book_id : Z)
    (st : DB) (s : option string) (h : Z) (Hr : ratings_ok st)
    (Hok : fst (get_book_summary SECRET_KEY now tok book_id st)
           = Ok (mkBookSummary s (Avg h))) :
  100 <= h <= 500.
Proof.
  cbv [get_book_summary bind] in Hok. auth_split now tok st v e; [|discriminate].
  unfold gets, raise, ret in Hok.
  destruct (find_book book_id st) as [b|]; [|discriminate].
  assert (HF : Forall (fun r => 1 <= Review.rating r <= 5)
                (filter (fun r => Review.book_id r =? book_id) (reviews st))).
  { unfold ratings_ok in Hr. rewrite Forall_forall in *.
    intros r Hin. apply filter_In in Hin. apply Hr, Hin. }
  destruct (filter (fun r => Review.book_id r =? book_id) (reviews st))
    as [|r0 rs]; [discriminate|].
  destruct (int_truediv _ _) as [x|] eqn:Hx; [|discriminate].
  simpl in Hok. injection Hok as _ <-.
  apply (float_average_bounds (r0 :: rs) x HF Hx). discriminate.
Qed.

(** An admin's [generate_summary] on a missing book answers 404 before the
    model's reply is looked at, and stores nothing. *)
Theorem generate_summary_missing_book (now : Z) (tok : option Token) (id : Z)
    (content reply : string) (st : DB) (u : User.t)
    (Hu : fst (get_current_user SECRET_KEY now tok st) = Ok u)
    (Hadmin : User.role u = ADMIN) (Hb : find_book id st = None) :
  generate_summary SECRET_KEY now tok id content reply st
  = (Raise (mkExc 404 "Book not found"), st).
Proof.
  cbv [generate_summary admin_dependencies bind].
  auth_split now tok st v e; simpl in Hu; [|discriminate].
  injection Hu as ->. unfold require_admin. rewrite Hadmin. simpl.
  unfold gets, raise. rewrite Hb. reflexivity.
Qed.

(** A successful [generate_summary] was made by an admin on an existing
    book, returns the model's reply, which does not contain ["NONE"], and
    stores it as that book's summary, the other columns kept. *)
Theorem generate_summary_persists (now : Z) (tok : option Token) (id : Z)
    (content reply : string) (st : DB) (s : string) (st' : DB)
    (Hok : generate_summary SECRET_KEY now tok id content reply st = (Ok s, st')) :
  s = reply /\ str_contains "NONE" reply = false
  /\ (exists u, fst (get_current_user SECRET_KEY now tok st) = Ok u
                /\ User.role u = ADMIN)
  /\ (exists b, find_book id st = Some b
                /\ find_book id st' = Some (Book.set_summary b (Some reply)))
  /\ users st' = users st /\ reviews st' = reviews st.
Proof.
  cbv [generate_summary admin_dependencies bind] in Hok.
  auth_split now tok st u e; [|discriminate].
  unfold require_admin, raise, ret in Hok.
  destruct (role_eqb (User.role u) ADMIN) eqn:Hrole; simpl in Hok; [|discriminate].
  unfold gets, commit in Hok.
  destruct (find_book id st) as [b|] eqn:Hb; [|discriminate].
  unfold generate_book_summary, raise, ret in Hok.
  destruct (str_contains "NONE" reply) eqn:Hn; [discriminate|].
  inversion Hok; subst s st'. clear Hok.
  split; [reflexivity|]. split; [reflexivity|]. split.
  { exists u. split; [reflexivity|]. destruct (User.role u); [discriminate|reflexivity]. }
  split; [|split; reflexivity].
  exists b. split; [reflexivity|].
  pose proof (find_book_id _ _ _ Hb) as Hid.
  unfold find_book, put_book. simpl. rewrite Hid.
  apply (find_map_replace _ _ b); [exact Hb|]. simpl. rewrite Hid. apply Z.eqb_refl.
Qed.

Lemma collapse_ws_chars (b : bool) (s : list ascii) (c : ascii) :
  In c (collapse_ws b s) -> c = " "%char \/ (In c s /\ is_space c = false).
Proof.
  revert b. induction s as [|x s IH]; intros b Hin; simpl in Hin; [contradiction|].
  destruct (is_space x) eqn:Hx; [destruct b|].
  - destruct (IH _ Hin) as [H|[H1 H2]]; [left; exact H|right; split; [right|]; assumption].
  - destruct Hin as [<-|Hin]; [left; reflexivity|].
    destruct (IH _ Hin) as [H|[H1 H2]]; [left; exact H|right; split; [right|]; assumption].
  - destruct Hin as [<-|Hin]; [right; split; [left; reflexivity|exact Hx]|].
    destruct (IH _ Hin) as [H|[H1 H2]]; [left; exact H|right; split; [right|]; assumption].
Qed.

Lemma split_semi_aux_chars (cur s piece : list ascii) (c : ascii) :
  In piece (split_semi_aux cur s) -> In c piece ->
  In c cur \/ (In c s /\ c <> ";"%char).
Proof.
  revert cur. induction s as [|x s IH]; intros cur Hp Hc; simpl in Hp.
  - destruct Hp as [<-|[]]. left. apply in_rev, Hc.
  - destruct (Ascii.eqb x ";"%char) eqn:Hx.
    + destruct Hp as [<-|Hp]; [left; apply in_rev, Hc|].
      destruct (IH [] Hp Hc) as [[]|[H1 H2]]. right. split; [right|]; assumption.
    + destruct (IH _ Hp Hc) as [[Ex|H]|[H1 H2]].
      * right. split; [left; exact Ex|]. intros E. subst c x.
        rewrite Ascii.eqb_refl in Hx. discriminate.
      * left. exact H.
      * right. split; [right|]; assumption.
Qed.

Lemma lstrip_in (s : list ascii) (c : ascii) : In c (lstrip s) -> In c s.
Proof.
  induction s as [|x s IH]; simpl; [tauto|].
  destruct (is_space x); [intros H; right; apply IH, H|tauto].
Qed.

Lemma strip_in (s : list ascii) (c : ascii) : In c (strip s) -> In c s.
Proof.
  unfold strip. intros H. apply in_rev, lstrip_in, in_rev, lstrip_in in H. exact H.
Qed.

(** [get_recommendations] answers 401 when the user cannot be resolved and
    changes nothing; otherwise it returns [recommend_books] of the reply,
    whose titles contain no [';'] and no whitespace other than the plain
    space. *)
Theorem get_recommendations_titles (now : Z) (tok : option Token)
    (reply : string) (st : DB) :
  snd (get_recommendations SECRET_KEY now tok reply st) = st
  /\ match fst (get_recommendations SECRET_KEY now tok reply st) with
     | Raise e => status_code e = 401
     | Ok titles =>
         titles = recommend_books reply
         /\ forall t c, In t titles -> In c (list_ascii_of_string t) ->
                        c <> ";"%char /\ (is_space c = true -> c = " "%char)
     end.
Proof.
  unfold get_recommendations, bind, ret.
  pose proof (get_current_user_state SECRET_KEY now tok st) as Hst.
  destruct (get_current_user SECRET_KEY now tok st) as [[u|e] st0] eqn:Hg;
    simpl in Hst; subst st0; simpl.
  - split; [reflexivity|]. split; [reflexivity|].
    intros t c Ht Hc. unfold recommend_books in Ht.
    apply in_map_iff in Ht. destruct Ht as (piece & <- & Hp).
    rewrite list_ascii_of_string_of_list_ascii in Hc. apply strip_in in Hc.
    unfold split_semi in Hp.
    destruct (split_semi_aux_chars _ _ _ _ Hp Hc) as [[]|[Hin Hsemi]].
    split; [exact Hsemi|]. intros Hsp.
    destruct (collapse_ws_chars _ _ _ Hin) as [E|[_ Hns]]; [exact E|].
    rewrite Hsp in Hns. discriminate.
  - split; [reflexivity|]. apply (get_current_user_status SECRET_KEY now tok st).
    rewrite Hg. reflexivity.
Qed.

(** Registering a user and then logging in with the same username and
    password yields the bearer token for the new user's id and username,
    valid 30 minutes, as long as the password verifies against its hash. *)
Theorem create_user_then_login (get_password_hash : string -> string)
    (verify_password : string -> string -> bool) (user : UserCreate) (st : DB)
    (u : User.t) (st' : DB) (now : Z)
    (Hok : create_user get_password_hash user st = (Ok u, st'))
    (Hv : verify_password (uc_password user)
                          (get_password_hash (uc_password user)) = true) :
  login SECRET_KEY verify_password now (mkForm (uc_username user) (uc_password user)) st'
  = (Ok (mkTokenResponse
           (create_access_token SECRET_KEY now
              (mkClaims (Some (User.id u)) (Some (uc_username user)) None)
              (Some (30 * 60))) "bearer"), st').
Proof.
  unfold create_user, bind, gets, raise in Hok.
  destruct (find _ (users st)) eqn:Hf; [discriminate|].
  unfold insert_user in Hok. simpl in Hok.
  destruct (existsb _ (users st)); [discriminate|].
  inversion Hok; subst u st'. clear Hok.
  unfold login, bind, gets, find_user_by_username. simpl.
  rewrite find_app_last; [| |apply String.eqb_refl].
  - simpl. rewrite Hv. reflexivity.
  - apply (proj2 (find_none_forall _ _)). intros x Hx.
    rewrite find_none_forall in Hf. specialize (Hf x Hx).
    apply orb_false_iff in Hf. apply Hf.
Qed.

(** The book is looked up before the rating's range is checked: for a
    missing book an authenticated, well-typed review is answered 404, even
    with a rating out of range, and nothing is stored. *)
Theorem add_review_missing_book (now : Z) (tok : option Token) (id : Z)
    (body : ReviewCreateBody) (st : DB) (u : User.t) (z : Z)
    (Hu : fst (get_current_user SECRET_KEY now tok st) = Ok u)
    (Hz : pydantic_int (rc_rating body) = Some z)
    (Hb : find_book id st = None) :
  add_review SECRET_KEY now tok id body st = (Raise (mkExc 404 "Book not found"), st).
Proof.
  cbv [add_review add_review_check bind]. auth_split now tok st v e; simpl in Hu;
    [|discriminate].
  rewrite Hz. unfold gets, raise. rewrite Hb. reflexivity.
Qed.

(** [get_book_summary] only reads the database, and fails only with 401
    (no user), 404 (no book), or the [OverflowError] of a mean too large
    for a double. *)
Theorem get_book_summary_read_only (now : Z) (tok : option Token) (book_id : Z)
    (st : DB) :
  snd (get_book_summary SECRET_KEY now tok book_id st) = st
  /\ (forall e, fst (get_book_summary SECRET_KEY now tok book_id st) = Raise e ->
       status_code e = 401 \/ status_code e = 404 \/ e = overflow_error).
Proof.
  cbv [get_book_summary bind]. auth_split now tok st v e.
  - unfold gets, raise, ret.
    destruct (find_book book_id st) as [b|].
    + destruct (filter _ (reviews st)) as [|r0 rs].
      * split; [reflexivity|]. intros e H. discriminate.
      * destruct (int_truediv _ _).
        -- split; [reflexivity|]. intros e H. discriminate.
        -- split; [reflexivity|]. intros e H. injection H as <-. auto.
    + split; [reflexivity|]. intros e H. injection H as <-. auto.
  - split; [reflexivity|]. intros e' H. injection H as <-. left.
    apply (get_current_user_status SECRET_KEY now tok st e). rewrite Heqp. reflexivity.
Qed.

End Handlers.

(** ** Instances of the handler properties *)

Lemma token_decode_roundtrip_witness :
  1800 <> 0
  /\ jwt_decode key0 100 tok_alice = Some (mkClaims (Some 7) (Some "alice") (Some 1800)).
Proof.
  split; [lia|]. unfold tok_alice.
  rewrite (token_decode_roundtrip key0 0 (mkClaims (Some 7) (Some "alice") None)
             1800 100 ltac:(lia)).
  reflexivity.
Defined.

Lemma login_token_expires_witness :
  get_current_user key0 1801 (Some tok_alice) db0 = (Raise credentials_exception, db0).
Proof.
  apply (login_token_expires key0 demo_verify 0 1801 (mkForm "alice" "pw") db0
           (mkTokenResponse tok_alice "bearer")); [reflexivity | lia].
Defined.

Lemma login_then_current_user_witness :
  exists u, find_user_by_username "alice" db0 = Some u
            /\ get_current_user key0 600 (Some tok_alice) db0 = (Ok u, db0).
Proof.
  apply (login_then_current_user key0 demo_verify 0 600 (mkForm "alice" "pw") db0
           (mkTokenResponse tok_alice "bearer")).
  - simpl. constructor; [intros [H|[]]; discriminate H|].
    constructor; [intros []|constructor].
  - reflexivity.
  - lia.
Defined.

Lemma whoami_uses_sub_witness :
  whoami key0 100 (Some tok_sub_only) db0 = (Ok alice, db0)
  /\ get_current_user key0 100 (Some tok_sub_only) db0
     = (Raise credentials_exception, db0).
Proof.
  apply (whoami_uses_sub key0 100 1800 "alice" db0 alice); [reflexivity|lia].
Defined.

Lemma create_user_duplicate_rejected_witness :
  create_user demo_hash carol_dup db0
  = (Raise (mkExc 400 "Username or email already registered"), db0).
Proof.
  apply (create_user_duplicate_rejected demo_hash carol_dup db0 alice);
    [simpl; left; reflexivity | right; reflexivity].
Defined.

Lemma create_user_keeps_user_ids_witness :
  user_ids_ok db_dave /\ User.id dave_row = next_user_id db0.
Proof.
  apply (create_user_keeps_user_ids demo_hash dave db0 db_dave dave_row).
  - split.
    + constructor; [simpl; lia|]. constructor; [simpl; lia|constructor].
    + simpl. constructor; [intros [H|[]]; discriminate H|].
      constructor; [intros []|constructor].
  - reflexivity.
Defined.

Lemma add_book_duplicate_rejected_witness :
  add_book key0 10 (Some tok_alice) dune_update db0
  = (Raise (mkExc 400 "Book with the same title and author already exists"), db0).
Proof.
  apply (add_book_duplicate_rejected key0 10 (Some tok_alice) dune_update db0 alice dune);
    [reflexivity | simpl; left; reflexivity | reflexivity | reflexivity].
Defined.

Lemma delete_book_outcomes_witness :
  exists st', delete_book key0 10 (Some tok_alice) 1 db0 = (Ok dune, st')
              /\ find_book 1 st' = None /\ reviews st' = reviews db0.
Proof.
  destruct (delete_book_outcomes key0 10 (Some tok_alice) 1 db0 alice eq_refl)
    as [_ H].
  apply H. reflexivity.
Defined.

Lemma add_review_keeps_ratings_witness :
  ratings_ok db_two /\ 1 <= Review.rating rv_root <= 5.
Proof.
  apply (add_review_keeps_ratings key0 10 (Some tok_root) 1 review_fine
           db_reviewed rv_root db_two).
  - constructor; [simpl; lia|constructor].
  - reflexivity.
Defined.

Lemma add_review_then_get_reviews_witness :
  (exists l, get_reviews key0 10 (Some tok_root) 1 db_two = (Ok l, db_two)
             /\ Permutation l (filter (fun r => Review.book_id r =? 1) (reviews db_reviewed)
                              ++ [rv_root]))
  /\ exists u, fst (get_current_user key0 10 (Some tok_root) db_reviewed) = Ok u
               /\ Review.user_id rv_root = User.id u.
Proof.
  apply (add_review_then_get_reviews key0 10 (Some tok_root) 1 review_fine
           db_reviewed rv_root db_two).
  reflexivity.
Defined.

Lemma get_reviews_no_404_witness :
  get_reviews key0 10 (Some tok_alice) 42 db_reviewed = (Ok [], db_reviewed).
Proof.
  apply (get_reviews_no_404 key0 10 (Some tok_alice) 42 db_reviewed alice).
  - reflexivity.
  - intros r [<-|[]]. simpl. discriminate.
Defined.

Lemma average_rating_bounds_witness :
  fst (get_book_summary key0 10 (Some tok_alice) 1 db_three)
  = Ok (mkBookSummary (Some "A desert planet.") (Avg 400))
  /\ 100 <= 400 <= 500.
Proof.
  assert (Hok : fst (get_book_summary key0 10 (Some tok_alice) 1 db_three)
                = Ok (mkBookSummary (Some "A desert planet.") (Avg 400)))
    by (vm_compute; reflexivity).
  split; [exact Hok|].
  apply (average_rating_bounds key0 10 (Some tok_alice) 1 db_three
           (Some "A desert planet.") 400); [|exact Hok].
  repeat constructor; simpl; lia.
Defined.

Lemma generate_summary_missing_book_witness :
  generate_summary key0 10 (Some tok_root) 42 "text" "NONE" db0
  = (Raise (mkExc 404 "Book not found"), db0).
Proof.
  apply (generate_summary_missing_book key0 10 (Some tok_root) 42 "text" "NONE" db0 root);
    reflexivity.
Defined.

Lemma generate_summary_persists_witness :
  str_contains "NONE" "A spice epic." = false
  /\ exists b, find_book 1 db0 = Some b
               /\ find_book 1 (put_book (Book.set_summary dune (Some "A spice epic.")) db0)
                  = Some (Book.set_summary b (Some "A spice epic.")).
Proof.
  destruct (generate_summary_persists key0 10 (Some tok_root) 1 "text" "A spice epic."
              db0 "A spice epic."
              (put_book (Book.set_summary dune (Some "A spice epic.")) db0)
              eq_refl) as (_ & Hn & _ & Hb & _).
  split; [exact Hn|exact Hb].
Defined.

Lemma create_user_then_login_witness :
  login key0 demo_verify 0 (mkForm "dave" "pw5") db_dave
  = (Ok (mkTokenResponse
           (create_access_token key0 0 (mkClaims (Some 9) (Some "dave") None) (Some 1800))
           "bearer"), db_dave).
Proof.
  apply (create_user_then_login key0 demo_hash demo_verify dave db0 dave_row db_dave 0);
    reflexivity.
Defined.

Lemma add_review_missing_book_witness :
  add_review key0 10 (Some tok_alice) 42 (mkReviewCreateBody "x" (JInt 9)) db0
  = (Raise (mkExc 404 "Book not found"), db0).
Proof.
  apply (add_review_missing_book key0 10 (Some tok_alice) 42
           (mkReviewCreateBody "x" (JInt 9)) db0 alice 9); reflexivity.
Defined.
